(** * pkce-twitter: the token guard and the guarded route handlers

    A shallow embedding of [src/server.ts]: the [withAuth] middleware (the
    "Token Guard"), the OAuth callback, the revoke, verify, like, retweet
    and stats handlers, and of [prisma/seed.ts].

    The handlers are [async] functions that talk to two collaborators, the
    provider (through [twitter-api-sdk]) and the relational store (through
    Prisma), and that leave a [try] block by a JavaScript exception.  They
    are embedded in a state-and-exception monad over a [World] that holds
    the two tables, the token of the module-level [authClient] and a log of
    the outbound calls.  What the collaborators answer to a request is
    read from an [Env]; requests are handled one after the other. *)

From Stdlib Require Import String ZArith List Bool Lia.
Import ListNotations.
Local Open Scope string_scope.
Local Open Scope Z_scope.
Local Open Scope list_scope.

(** ** JavaScript values of the request *)

(** A field of [req.body] or [req.query] is absent ([undefined]) or holds a
    value of the type the handlers expect. *)

Definition truthy_str (v : option string) : bool :=
  match v with
  | Some s => negb (s =? "")%string
  | None => false
  end.

Definition truthy_num (v : option Z) : bool :=
  match v with
  | Some n => negb (n =? 0)
  | None => false
  end.

(** The string a field known to be truthy holds. *)
Definition str (v : option string) : string :=
  match v with
  | Some s => s
  | None => ""
  end.

(** [a || b] where [b] is a string. *)
Definition js_or (a : option string) (b : string) : string :=
  if truthy_str a then str a else b.

(** [strict_eq v c] is [v === c] for a string constant [c]. *)
Definition strict_eq (v : option string) (c : string) : bool :=
  match v with
  | Some s => (s =? c)%string
  | None => false
  end.

(** ** Data *)

(** A response or an error of the provider, kept opaque. *)
Definition Payload := string.

(** [interface TokenData] *)
Record TokenData := mkTokenData {
  td_accessToken : string;
  td_refreshToken : string;
  td_expiresAt : Z
}.

(** [interface TwitterUserData] *)
Record TwitterUserData := mkTwitterUserData {
  tu_id : string;
  tu_username : option string;
  tu_name : option string;
  tu_profile_image_url : option string
}.

(** The token of an [auth.OAuth2User]: what [withAuth] stores in
    [authClient.token], and what a token grant of the provider answers. *)
Record Token := mkToken {
  access_token : string;
  refresh_token : option string;
  expires_at : option Z
}.

(** The token of a successful refresh grant, with the types [withAuth]
    reads it at: [refresh_token] may be missing, [expires_at] is read
    [as number]. *)
Record Refreshed := mkRefreshed {
  rf_access_token : string;
  rf_refresh_token : option string;
  rf_expires_at : Z
}.

(** A row of the [User] table. *)
Record User := mkUser {
  u_id : string;
  u_twitterId : string;
  u_username : option string;
  u_name : option string;
  u_profileImgUrl : option string;
  u_accessToken : string;
  u_refreshToken : string;
  u_tokenExpiresAt : Z;
  u_updatedAt : Z
}.

(** The columns of a [UserAction] row that the code writes. *)
Record UserAction := mkUserAction {
  ua_userId : string;
  ua_tweetId : string;
  ua_action : string;
  ua_success : bool
}.

(** The fields the handlers read from [req.body], and from [req.query] in
    the callback. *)
Record Request := mkRequest {
  accessToken : option string;
  refreshToken : option string;
  expiresAt : option Z;
  twitterId : option string;
  tweetId : option string;
  code : option string;
  state : option string
}.

(** ** Outbound calls *)

Inductive Call :=
| RefreshAccessToken (refresh : option string)
| RequestAccessToken (code : option string)
| RevokeAccessToken (bearer : option string)
| FindMyUser (bearer : option string)
| UsersIdLike (bearer : option string) (userId tweetId : string)
| UsersIdRetweets (bearer : option string) (userId tweetId : string)
| UserUpdateMany (twitterId accessToken refreshToken : string) (expires : Z)
| UserUpsert (twitterId : string)
| UserFindFirst (twitterId : string)
| UserActionCreate (row : UserAction)
| UserActionCreateMany (rows : list UserAction)
| UserActionCounts (userId : string).

Definition is_refresh_call (c : Call) : bool :=
  match c with
  | RefreshAccessToken _ => true
  | _ => false
  end.

(** ** The world and the environment *)

Record World := mkWorld {
  users : list User;
  userActions : list UserAction;
  authClient_token : option Token;
  calls : list Call
}.

(** The outcome of an awaited promise. *)
Inductive Result (A : Type) :=
| Resolved (a : A)
| Rejected (e : Payload).
Arguments Resolved {A} a.
Arguments Rejected {A} e.

(** What the clock, the provider and the store answer during one request.
    Every handler makes each kind of call at most once, so one answer per
    kind is enough.  A store call that is [Resolved] acts on the tables as
    modelled below; one that is [Rejected] throws and leaves them alone.
    [now] is what [Date.now()] and [new Date()] read, [new_id] the [id]
    the store gives a row it creates; the store stamps [updatedAt] of a
    created row, here with [now]. *)
Record Env := mkEnv {
  now : Z;
  refresh_reply : Result Refreshed;
  exchange_reply : Result TokenData;
  revoke_reply : Result Payload;
  findMyUser_reply : Result (option TwitterUserData);
  like_reply : Result Payload;
  retweet_reply : Result Payload;
  updateMany_reply : Result unit;
  upsert_reply : Result unit;
  findFirst_reply : Result unit;
  create_reply : Result unit;
  counts_reply : Result unit;
  new_id : string
}.

(** ** The monad: state and JavaScript exceptions *)

Inductive Outcome (A : Type) :=
| Val (a : A)
| Exn (e : Payload).
Arguments Val {A} a.
Arguments Exn {A} e.

Definition M (A : Type) : Type := World -> Outcome A * World.

Definition ret {A} (a : A) : M A := fun w => (Val a, w).

Definition bind {A B} (m : M A) (k : A -> M B) : M B :=
  fun w =>
    match m w with
    | (Val a, w') => k a w'
    | (Exn e, w') => (Exn e, w')
    end.

Definition throw {A} (e : Payload) : M A := fun w => (Exn e, w).

(** [try { m } catch (error) { h error }] *)
Definition try_catch {A} (m : M A) (h : Payload -> M A) : M A :=
  fun w =>
    match m w with
    | (Val a, w') => (Val a, w')
    | (Exn e, w') => h e w'
    end.

Definition get : M World := fun w => (Val w, w).
Definition modify (f : World -> World) : M unit := fun w => (Val tt, f w).

Notation "x <- m ;; k" := (bind m (fun x => k))
  (at level 61, m at next level, right associativity).
Notation "m ;;; k" := (bind m (fun _ => k))
  (at level 61, right associativity).

(** [await p]: the value of a resolved promise, the exception of a
    rejected one. *)
Definition await {A} (r : Result A) : M A :=
  match r with
  | Resolved a => ret a
  | Rejected e => throw e
  end.

Definition log (c : Call) : M unit :=
  modify (fun w => mkWorld (users w) (userActions w) (authClient_token w)
                           (calls w ++ [c])).

Definition set_users (us : list User) : M unit :=
  modify (fun w => mkWorld us (userActions w) (authClient_token w) (calls w)).

Definition set_userActions (l : list UserAction) : M unit :=
  modify (fun w => mkWorld (users w) l (authClient_token w) (calls w)).

Definition set_token (t : Token) : M unit :=
  modify (fun w => mkWorld (users w) (userActions w) (Some t) (calls w)).

(** ** The provider, through twitter-api-sdk *)

(** The access token the SDK sends as [Bearer] for a call made through
    [authClient], or through a [Client] built on it: the client keeps a
    reference to [authClient], not a copy of its token. *)
Definition bearer (w : World) : option string :=
  match authClient_token w with
  | Some t => Some (access_token t)
  | None => None
  end.

Definition held_refresh_token (w : World) : option string :=
  match authClient_token w with
  | Some t => refresh_token t
  | None => None
  end.

(** [authClient.refreshAccessToken()]: the refresh grant with the refresh
    token the client holds; the SDK keeps the token of the answer in the
    client ([this.token = token]) and returns it. *)
Definition refreshAccessToken (env : Env) : M Refreshed :=
  w <- get ;;
  log (RefreshAccessToken (held_refresh_token w)) ;;;
  t <- await (refresh_reply env) ;;
  set_token (mkToken (rf_access_token t) (rf_refresh_token t)
                     (Some (rf_expires_at t))) ;;;
  ret t.

(** [authClient.requestAccessToken(code)], likewise. *)
Definition requestAccessToken (env : Env) (c : option string) : M TokenData :=
  log (RequestAccessToken c) ;;;
  t <- await (exchange_reply env) ;;
  set_token (mkToken (td_accessToken t) (Some (td_refreshToken t))
                     (Some (td_expiresAt t))) ;;;
  ret t.

(** [authClient.revokeAccessToken()] *)
Definition revokeAccessToken (env : Env) : M Payload :=
  w <- get ;;
  log (RevokeAccessToken (bearer w)) ;;;
  await (revoke_reply env).

(** [authClient.isAccessTokenExpired()] of the SDK: a token without
    [expires_at] counts as expired; one with it does when there is a
    refresh token and the expiry is not more than a second away. *)
Definition isAccessTokenExpired (env : Env) (t : Token) : bool :=
  if negb (truthy_num (expires_at t)) then true
  else truthy_str (refresh_token t)
       && match expires_at t with
          | Some e => e <=? now env + 1000
          | None => false
          end.

(** [authClient.getAuthHeader()] of the SDK, which a [Client] built on
    [authClient] calls for the header of each request it sends: without
    an access token it throws; when the token counts as expired it first
    refreshes it, which needs a refresh token; the header carries the
    access token [authClient] then holds. *)
Definition getAuthHeader (env : Env) : M string :=
  w <- get ;;
  if negb (truthy_str (bearer w)) then
    throw "You do not have an access token"
  else
    match authClient_token w with
    | Some t =>
        if isAccessTokenExpired env t then
          if truthy_str (refresh_token t) then
            refreshAccessToken env ;;; ret tt
          else throw "refresh_token is required"
        else ret tt
    | None => ret tt
    end ;;;
    w' <- get ;;
    ret (str (bearer w')).

(** A [Client] is built on the module-level [authClient], of which it
    keeps a reference and not a copy of the token, or on an [OAuth2User]
    of its own that was given a token. *)
Inductive Client :=
| OnAuthClient
| OnOwnToken (t : TokenData).

Definition client_bearer (c : Client) (w : World) : option string :=
  match c with
  | OnAuthClient => bearer w
  | OnOwnToken t => Some (td_accessToken t)
  end.

(** [client.users.findMyUser()]: the call as the handler makes it, with
    the token the client holds at that moment, and its answer.  The
    refresh [getAuthHeader] may make on the way is inside the SDK and is
    not a step of this model; the answer of the environment is that of
    the call as a whole. *)
Definition findMyUser (env : Env) (c : Client) : M (option TwitterUserData) :=
  w <- get ;;
  log (FindMyUser (client_bearer c w)) ;;;
  await (findMyUser_reply env).

(** [client.tweets.usersIdLike(userId, { tweet_id })], in the same way. *)
Definition usersIdLike (env : Env) (c : Client) (userId tweet : string)
  : M Payload :=
  w <- get ;;
  log (UsersIdLike (client_bearer c w) userId tweet) ;;;
  await (like_reply env).

(** [client.tweets.usersIdRetweets(userId, { tweet_id })], in the same
    way. *)
Definition usersIdRetweets (env : Env) (c : Client) (userId tweet : string)
  : M Payload :=
  w <- get ;;
  log (UsersIdRetweets (client_bearer c w) userId tweet) ;;;
  await (retweet_reply env).

(** ** The store, through Prisma *)

Definition with_tokens (at_ rt : string) (ex upd : Z) (u : User) : User :=
  mkUser (u_id u) (u_twitterId u) (u_username u) (u_name u)
         (u_profileImgUrl u) at_ rt ex upd.

(** [prisma.user.updateMany({ where: { twitterId }, data })] *)
Definition user_updateMany (env : Env) (tid at_ rt : string) (ex upd : Z)
  : M unit :=
  log (UserUpdateMany tid at_ rt ex) ;;;
  await (updateMany_reply env) ;;;
  w <- get ;;
  set_users (map (fun u => if (u_twitterId u =? tid)%string
                           then with_tokens at_ rt ex upd u else u)
                 (users w)).

(** [prisma.user.findFirst({ where: { twitterId } })] *)
Definition user_findFirst (env : Env) (tid : string) : M (option User) :=
  log (UserFindFirst tid) ;;;
  await (findFirst_reply env) ;;;
  w <- get ;;
  ret (find (fun u => (u_twitterId u =? tid)%string) (users w)).

(** [prisma.user.upsert({ where: { twitterId }, update, create })]: the
    row with that [twitterId] is updated when there is one, and [create] is
    added otherwise; the row is returned. *)
Definition user_upsert (env : Env) (tid : string) (update : User -> User)
                       (create : User) : M User :=
  log (UserUpsert tid) ;;;
  await (upsert_reply env) ;;;
  w <- get ;;
  match find (fun u => (u_twitterId u =? tid)%string) (users w) with
  | Some u =>
      set_users (map (fun u => if (u_twitterId u =? tid)%string
                               then update u else u)
                     (users w)) ;;;
      ret (update u)
  | None =>
      set_users (users w ++ [create]) ;;;
      ret create
  end.

(** [prisma.userAction.create({ data })] *)
Definition userAction_create (env : Env) (row : UserAction) : M unit :=
  log (UserActionCreate row) ;;;
  await (create_reply env) ;;;
  w <- get ;;
  set_userActions (userActions w ++ [row]).

(** [prisma.userAction.createMany({ data, skipDuplicates: true })]; the
    rows as written carry no unique column, so none is skipped. *)
Definition userAction_createMany (env : Env) (rows : list UserAction)
  : M unit :=
  log (UserActionCreateMany rows) ;;;
  await (create_reply env) ;;;
  w <- get ;;
  set_userActions (userActions w ++ rows).

(** [prisma.userAction.count({ where })] *)
Definition count_where (p : UserAction -> bool) (l : list UserAction) : Z :=
  Z.of_nat (length (filter p l)).

Record Stats := mkStats {
  totalActions : Z;
  likes : Z;
  retweets : Z;
  successful : Z;
  failed : Z
}.

(** The [prisma.$transaction] of the five counts of [/user/stats]. *)
Definition userAction_counts (env : Env) (uid : string) : M Stats :=
  log (UserActionCounts uid) ;;;
  await (counts_reply env) ;;;
  w <- get ;;
  let mine a := (ua_userId a =? uid)%string in
  ret (mkStats
         (count_where mine (userActions w))
         (count_where (fun a => mine a && (ua_action a =? "like")%string)
                      (userActions w))
         (count_where (fun a => mine a && (ua_action a =? "retweet")%string)
                      (userActions w))
         (count_where (fun a => mine a && Bool.eqb (ua_success a) true)
                      (userActions w))
         (count_where (fun a => mine a && Bool.eqb (ua_success a) false)
                      (userActions w))).

(** ** Responses *)

Inductive Body :=
| ErrorBody (error : string)
| RevokeBody (success : bool) (response : Payload)
| VerifyBody (user : option TwitterUserData) (tokens : option TokenData)
| ActionBody (success : bool) (data : Payload) (tokens : option TokenData)
| StatsBody (id : string) (username name profileImgUrl : option string)
            (stats : Stats) (tokens : option TokenData).

(** [res.status(n).json(body)], [res.json(body)] with status 200, and the
    [res.redirect] of the callback with the query of its URL. *)
Inductive Response :=
| Json (status : Z) (body : Body)
| Redirect (accessToken refreshToken : string) (expiresAt : Z)
           (twitterId : string).

Definition status_of (r : Response) : Z :=
  match r with
  | Json s _ => s
  | Redirect _ _ _ _ => 302
  end.

(** [res.locals] as [withAuth] leaves it. *)
Record Locals := mkLocals {
  l_tokenData : option TokenData;
  l_twitterClient : Client;
  l_twitterId : option string
}.

(** How a middleware ends: it has sent the response, or called [next()]. *)
Inductive Guarded :=
| Sent (r : Response)
| Next (l : Locals).

(** ** The Token Guard *)

Definition STATE : string := "twitter-auth-state".

(** [now >= expiresAt]; the comparison with [undefined] is false. *)
Definition js_ge (n : Z) (v : option Z) : bool :=
  match v with
  | Some e => n >=? e
  | None => false
  end.

Definition withAuth (env : Env) (req : Request) : M Guarded :=
  try_catch
    (if negb (truthy_str (accessToken req))
        || negb (truthy_str (refreshToken req)) then
       ret (Sent (Json 401 (ErrorBody "Authentication required")))
     else
       set_token (mkToken (str (accessToken req)) (refreshToken req)
                          (expiresAt req)) ;;;
       tokenData <-
         (if truthy_num (expiresAt req) && js_ge (now env) (expiresAt req) then
            refreshedTokens <- refreshAccessToken env ;;
            let tokenData :=
              mkTokenData (rf_access_token refreshedTokens)
                          (js_or (rf_refresh_token refreshedTokens)
                                 (str (refreshToken req)))
                          (rf_expires_at refreshedTokens) in
            (if truthy_str (twitterId req) then
               user_updateMany env (str (twitterId req))
                 (rf_access_token refreshedTokens)
                 (js_or (rf_refresh_token refreshedTokens)
                        (str (refreshToken req)))
                 (rf_expires_at refreshedTokens)
                 (now env)
             else ret tt) ;;;
            ret (Some tokenData)
          else ret None) ;;
       ret (Next (mkLocals tokenData OnAuthClient
                           (if truthy_str (twitterId req)
                            then twitterId req else None))))
    (fun _ => ret (Sent (Json 401 (ErrorBody "Authentication failed")))).

(** [router.METHOD(path, withAuth, handler)] *)
Definition guarded (handler : Env -> Request -> Locals -> M Response)
                   (env : Env) (req : Request) : M Response :=
  g <- withAuth env req ;;
  match g with
  | Sent r => ret r
  | Next l => handler env req l
  end.

(** ** The handlers *)

(** [userResponse.data.id], a [TypeError] when [data] is [undefined]. *)
Definition data_id (userResponse : option TwitterUserData) : M string :=
  match userResponse with
  | Some d => ret (tu_id d)
  | None => throw "TypeError"
  end.

(** What Prisma writes for an optional field of [update]: a value, or the
    column as it is when the field is [undefined]. *)
Definition written (v old : option string) : option string :=
  match v with
  | Some s => Some s
  | None => old
  end.

Definition callbackHandler (env : Env) (req : Request) : M Response :=
  try_catch
    (if negb (strict_eq (state req) STATE) then
       ret (Json 400 (ErrorBody "Invalid state parameter"))
     else
       tokenData <- requestAccessToken env (code req) ;;
       twitterUser <- findMyUser env (OnOwnToken tokenData) ;;
       match twitterUser with
       | Some d =>
           user_upsert env (tu_id d)
             (fun u => mkUser (u_id u) (u_twitterId u)
                              (written (tu_username d) (u_username u))
                              (written (tu_name d) (u_name u))
                              (written (tu_profile_image_url d)
                                       (u_profileImgUrl u))
                              (td_accessToken tokenData)
                              (td_refreshToken tokenData)
                              (td_expiresAt tokenData) (now env))
             (mkUser (new_id env) (tu_id d) (tu_username d) (tu_name d)
                     (tu_profile_image_url d) (td_accessToken tokenData)
                     (td_refreshToken tokenData) (td_expiresAt tokenData)
                     (now env)) ;;;
           ret tt
       | None => ret tt
       end ;;;
       ret (Redirect (td_accessToken tokenData) (td_refreshToken tokenData)
                     (td_expiresAt tokenData)
                     (match twitterUser with
                      | Some d => tu_id d
                      | None => ""
                      end)))
    (fun _ => ret (Json 500 (ErrorBody "Authentication failed"))).

Definition revokeHandler (env : Env) (req : Request) (l : Locals)
  : M Response :=
  try_catch
    (response <- revokeAccessToken env ;;
     ret (Json 200 (RevokeBody true response)))
    (fun _ => ret (Json 500 (ErrorBody "Failed to revoke token"))).

Definition verifyHandler (env : Env) (req : Request) (l : Locals)
  : M Response :=
  try_catch
    (userResponse <- findMyUser env (l_twitterClient l) ;;
     ret (Json 200 (VerifyBody userResponse (l_tokenData l))))
    (fun _ => ret (Json 500 (ErrorBody "Failed to verify user"))).

(** The like and the retweet handler are the same text up to the provider
    call, the [action] written to the log row and the message of the 500
    response. *)
Definition actionHandler
    (call : Env -> Client -> string -> string -> M Payload)
    (action failure : string)
    (env : Env) (req : Request) (l : Locals) : M Response :=
  try_catch
    (if negb (truthy_str (tweetId req)) then
       ret (Json 400 (ErrorBody "Tweet ID is required"))
     else
       let client := l_twitterClient l in
       userResponse <- findMyUser env client ;;
       userId <- data_id userResponse ;;
       attempt <-
         try_catch
           (response <- call env client userId (str (tweetId req)) ;;
            ret (true, response))
           (fun actionError => ret (false, actionError)) ;;
       let success := fst attempt in
       let response := snd attempt in
       (if truthy_str (l_twitterId l) then
          user <- user_findFirst env userId ;;
          match user with
          | Some u =>
              userAction_create env
                (mkUserAction (u_id u) (str (tweetId req)) action success)
          | None => ret tt
          end
        else ret tt) ;;;
       ret (Json 200 (ActionBody success response (l_tokenData l))))
    (fun _ => ret (Json 500 (ErrorBody failure))).

Definition likeHandler : Env -> Request -> Locals -> M Response :=
  actionHandler usersIdLike "like" "Failed to like tweet".

Definition retweetHandler : Env -> Request -> Locals -> M Response :=
  actionHandler usersIdRetweets "retweet" "Failed to retweet".

Definition statsHandler (env : Env) (req : Request) (l : Locals)
  : M Response :=
  try_catch
    (userResponse <- findMyUser env (l_twitterClient l) ;;
     userId <- data_id userResponse ;;
     user <- user_findFirst env userId ;;
     match user with
     | None => ret (Json 404 (ErrorBody "User not found in database"))
     | Some u =>
         stats <- userAction_counts env (u_id u) ;;
         ret (Json 200 (StatsBody (u_twitterId u) (u_username u) (u_name u)
                                  (u_profileImgUrl u) stats (l_tokenData l)))
     end)
    (fun _ => ret (Json 500 (ErrorBody "Failed to get user stats"))).

(** The routes of the router. *)
Inductive Route :=
| AuthCallback
| AuthRevoke
| AuthVerify
| TweetsLike
| TweetsRetweet
| UserStats.

Definition serve (r : Route) : Env -> Request -> M Response :=
  match r with
  | AuthCallback => callbackHandler
  | AuthRevoke => guarded revokeHandler
  | AuthVerify => guarded verifyHandler
  | TweetsLike => guarded likeHandler
  | TweetsRetweet => guarded retweetHandler
  | UserStats => guarded statsHandler
  end.

Definition is_guarded (r : Route) : bool :=
  match r with
  | AuthCallback => false
  | _ => true
  end.

(** ** [prisma/seed.ts] *)

Definition seed_main (env : Env) : M unit :=
  try_catch
    (testUser <-
       user_upsert env "seed_test_user" (fun u => u)
         (mkUser (new_id env) "seed_test_user" (Some "tester")
                 (Some "Test User") (Some "https://via.placeholder.com/400")
                 "example_access_token" "example_refresh_token"
                 (now env + 3600000) (now env)) ;;
     userAction_createMany env
       [mkUserAction (u_id testUser) "1234567890" "like" true;
        mkUserAction (u_id testUser) "0987654321" "retweet" true;
        mkUserAction (u_id testUser) "5678901234" "like" false])
    (fun _ => ret tt).

(** ** Vocabulary of the statements *)

Definition resolved {A} (r : Result A) : bool :=
  match r with
  | Resolved _ => true
  | Rejected _ => false
  end.

(** What an awaited call leaves in the [try]/[catch] of the action
    handlers: the response, or the error that was caught. *)
Definition payload (r : Result Payload) : Payload :=
  match r with
  | Resolved a => a
  | Rejected e => e
  end.

(** The calls of [cs] that are refresh grants. *)
Definition refresh_calls (cs : list Call) : nat :=
  length (filter is_refresh_call cs).

(** The token [withAuth] first loads into [authClient]. *)
Definition supplied (req : Request) : Token :=
  mkToken (str (accessToken req)) (refreshToken req) (expiresAt req).

(** The test of the refresh branch. *)
Definition expired (env : Env) (req : Request) : bool :=
  truthy_num (expiresAt req) && js_ge (now env) (expiresAt req).

(** The replacement pair after the refresh answered [t]. *)
Definition replacement (req : Request) (t : Refreshed) : TokenData :=
  mkTokenData (rf_access_token t)
              (js_or (rf_refresh_token t) (str (refreshToken req)))
              (rf_expires_at t).

(** The pair that keeps the refresh token of the request. *)
Definition retained (req : Request) (t : Refreshed) : TokenData :=
  mkTokenData (rf_access_token t) (str (refreshToken req)) (rf_expires_at t).

Definition refreshed_token (t : Refreshed) : Token :=
  mkToken (rf_access_token t) (rf_refresh_token t) (Some (rf_expires_at t)).

Definition locals_of (req : Request) (td : option TokenData) : Locals :=
  mkLocals td OnAuthClient
           (if truthy_str (twitterId req) then twitterId req else None).

(** The row the guard's [updateMany] makes of [u]. *)
Definition persisted (env : Env) (req : Request) (t : Refreshed) (u : User)
  : User :=
  if (u_twitterId u =? str (twitterId req))%string
  then with_tokens (rf_access_token t)
                   (js_or (rf_refresh_token t) (str (refreshToken req)))
                   (rf_expires_at t) (now env) u
  else u.

Definition persist_call (req : Request) (t : Refreshed) : Call :=
  UserUpdateMany (str (twitterId req)) (rf_access_token t)
                 (js_or (rf_refresh_token t) (str (refreshToken req)))
                 (rf_expires_at t).

(** The local row of the account [tid]. *)
Definition local_user (tid : string) (w : World) : option User :=
  find (fun u => (u_twitterId u =? tid)%string) (users w).

(** The logging step of an action handler throws: it is entered, and the
    lookup or the insert is rejected. *)
Definition logging_fails (env : Env) (l : Locals) (userId : string)
                         (w : World) : bool :=
  truthy_str (l_twitterId l)
  && (negb (resolved (findFirst_reply env))
      || match local_user userId w with
         | Some _ => negb (resolved (create_reply env))
         | None => false
         end).

(** Something other than the like or retweet call fails in an action
    handler: the identity lookup is rejected or answers without [data],
    or the logging step throws. *)
Definition fails_elsewhere (env : Env) (l : Locals) (w : World) : bool :=
  match findMyUser_reply env with
  | Resolved (Some d) => logging_fails env l (tu_id d) w
  | _ => true
  end.

Definition known_action (a : UserAction) : Prop :=
  ua_action a = "like" \/ ua_action a = "retweet".

(** [m] relates the world it starts in to the world it ends in by [R],
    whether it returns or throws. *)
Definition keeps (R : World -> World -> Prop) {A} (m : M A) : Prop :=
  forall w, R w (snd (m w)).

(** The action log has grown by rows of a known action. *)
Definition grows (w w' : World) : Prop :=
  exists rows,
    userActions w' = userActions w ++ rows /\ Forall known_action rows.

(** The worlds the program can be in: it starts with an empty action log,
    and moves by a run of the seed script or by serving a request. *)
Inductive reachable : World -> Prop :=
| reach_start (us : list User) (t : option Token) (cs : list Call) :
    reachable (mkWorld us [] t cs)
| reach_seed (env : Env) (w : World) :
    reachable w -> reachable (snd (seed_main env w))
| reach_serve (r : Route) (env : Env) (req : Request) (w : World) :
    reachable w -> reachable (snd (serve r env req w)).

(** ** Sample requests *)

Definition alice : User :=
  mkUser "u1" "tw1" (Some "alice") (Some "Alice") None "a0" "r0" 500 1.

Definition one_user : World := mkWorld [alice] [] None [].

Definition alice_data : TwitterUserData :=
  mkTwitterUserData "tw1" (Some "alice") (Some "Alice") None.

(** Every collaborator answers; the refresh grant rotates nothing. *)
Definition calm : Env :=
  mkEnv 1000 (Resolved (mkRefreshed "a1" None 9000))
        (Resolved (mkTokenData "a2" "r2" 9000)) (Resolved "revoked")
        (Resolved (Some alice_data)) (Resolved "liked") (Resolved "retweeted")
        (Resolved tt) (Resolved tt) (Resolved tt) (Resolved tt) (Resolved tt)
        "u2".

(** The store rejects the [updateMany] of the guard. *)
Definition store_down : Env :=
  mkEnv 1000 (Resolved (mkRefreshed "a1" None 9000))
        (Resolved (mkTokenData "a2" "r2" 9000)) (Resolved "revoked")
        (Resolved (Some alice_data)) (Resolved "liked") (Resolved "retweeted")
        (Rejected "store unavailable") (Resolved tt) (Resolved tt)
        (Resolved tt) (Resolved tt) "u2".

(** The provider rejects the like and the retweet. *)
Definition action_refused : Env :=
  mkEnv 1000 (Resolved (mkRefreshed "a1" None 9000))
        (Resolved (mkTokenData "a2" "r2" 9000)) (Resolved "revoked")
        (Resolved (Some alice_data)) (Rejected "forbidden")
        (Rejected "forbidden") (Resolved tt) (Resolved tt) (Resolved tt)
        (Resolved tt) (Resolved tt) "u2".

(** A like of tweet [t9] with a pair that expired at 500. *)
Definition stale_like : Request :=
  mkRequest (Some "a0") (Some "r0") (Some 500) (Some "tw1") (Some "t9")
            None None.

(** The same with [expiresAt: 0]. *)
Definition zero_like : Request :=
  mkRequest (Some "a0") (Some "r0") (Some 0) (Some "tw1") (Some "t9")
            None None.

(** The same without [twitterId], and a pair that is still valid. *)
Definition anonymous_like : Request :=
  mkRequest (Some "a0") (Some "r0") (Some 5000) None (Some "t9") None None.

(** A request without [refreshToken]. *)
Definition bare_like : Request :=
  mkRequest (Some "a0") None (Some 500) (Some "tw1") (Some "t9") None None.

(** A callback with a foreign [state]. *)
Definition forged_callback : Request :=
  mkRequest None None None None None (Some "X") (Some "WRONG").

(** The world after a refused like and then a retweet of [alice]. *)
Definition after_two_actions : World :=
  snd (serve TweetsRetweet calm stale_like
         (snd (serve TweetsLike action_refused stale_like one_user))).

(** ** The claims as the specification words them, where the code differs *)

(** A failed persistence of the refreshed pair lets the request through
    with the replacement pair. *)
Definition persist_failure_tolerated : Prop :=
  forall env req w t e,
    truthy_str (accessToken req) = true ->
    truthy_str (refreshToken req) = true ->
    expired env req = true ->
    refresh_reply env = Resolved t ->
    truthy_str (twitterId req) = true ->
    updateMany_reply env = Rejected e ->
    exists l w',
      withAuth env req w = (Val (Next l), w')
      /\ l_tokenData l = Some (replacement req t).

(** Every pair whose [expiresAt] is at or before the current time is
    refreshed, once. *)
Definition past_expiry_always_refreshed : Prop :=
  forall env req w e,
    truthy_str (accessToken req) = true ->
    truthy_str (refreshToken req) = true ->
    expiresAt req = Some e ->
    e <= now env ->
    exists cs,
      calls (snd (withAuth env req w)) = calls w ++ cs
      /\ refresh_calls cs = 1%nat.

(** Every like that passes the guard with a [tweetId] and whose acting
    account has a local row is logged, once. *)
Definition every_like_logged : Prop :=
  forall env req w l w1 d u,
    withAuth env req w = (Val (Next l), w1) ->
    truthy_str (tweetId req) = true ->
    findMyUser_reply env = Resolved (Some d) ->
    local_user (tu_id d) w1 = Some u ->
    findFirst_reply env = Resolved tt ->
    create_reply env = Resolved tt ->
    exists row,
      userActions (snd (serve TweetsLike env req w)) = userActions w ++ [row]
      /\ ua_success row = resolved (like_reply env).

(** ** Vocabulary of the further properties *)

(** The [tokens] field of a response body, when it has one. *)
Definition body_tokens (b : Body) : option TokenData :=
  match b with
  | VerifyBody _ tokens => tokens
  | ActionBody _ _ tokens => tokens
  | StatsBody _ _ _ _ _ tokens => tokens
  | _ => None
  end.

Definition tokens_of (r : Response) : option TokenData :=
  match r with
  | Json _ b => body_tokens b
  | Redirect _ _ _ _ => None
  end.

(** The local id and the account of every User row, in table order. *)
Definition keys (w : World) : list (string * string) :=
  map (fun u => (u_id u, u_twitterId u)) (users w).

Definition same_keys (w w' : World) : Prop := keys w' = keys w.

(** No two User rows are of the same account ([twitterId @unique]). *)
Definition unique_accounts (w : World) : Prop :=
  NoDup (map u_twitterId (users w)).

Definition stays_unique (w w' : World) : Prop :=
  unique_accounts w -> unique_accounts w'.

(** The row [create] of the callback's upsert for the identity [d] and the
    exchanged pair [t]. *)
Definition created_user (env : Env) (d : TwitterUserData) (t : TokenData)
  : User :=
  mkUser (new_id env) (tu_id d) (tu_username d) (tu_name d)
         (tu_profile_image_url d) (td_accessToken t) (td_refreshToken t)
         (td_expiresAt t) (now env).

(** What its [update] makes of the row [u]. *)
Definition updated_user (env : Env) (d : TwitterUserData) (t : TokenData)
                        (u : User) : User :=
  mkUser (u_id u) (u_twitterId u) (written (tu_username d) (u_username u))
         (written (tu_name d) (u_name u))
         (written (tu_profile_image_url d) (u_profileImgUrl u))
         (td_accessToken t) (td_refreshToken t) (td_expiresAt t) (now env).

(** The request a front end makes of the query of the callback's
    redirect. *)
Definition request_of_redirect (accessToken refreshToken : string)
    (expiresAt : Z) (twitterId : string) (tweet : option string) : Request :=
  mkRequest (Some accessToken) (Some refreshToken) (Some expiresAt)
            (Some twitterId) tweet None None.

(** [env] with another answer to the refresh grant. *)
Definition with_refresh (r : Result Refreshed) (env : Env) : Env :=
  mkEnv (now env) r (exchange_reply env) (revoke_reply env)
        (findMyUser_reply env) (like_reply env) (retweet_reply env)
        (updateMany_reply env) (upsert_reply env) (findFirst_reply env)
        (create_reply env) (counts_reply env) (new_id env).

(** [env] with another answer to the identity lookup. *)
Definition with_identity (r : Result (option TwitterUserData)) (env : Env)
  : Env :=
  mkEnv (now env) (refresh_reply env) (exchange_reply env) (revoke_reply env)
        r (like_reply env) (retweet_reply env) (updateMany_reply env)
        (upsert_reply env) (findFirst_reply env) (create_reply env)
        (counts_reply env) (new_id env).

(** A second account, of which [one_user] has no row. *)
Definition bob_data : TwitterUserData :=
  mkTwitterUserData "tw2" (Some "bob") None None.

(** The statuses a route answers with. *)
Definition statuses (r : Route) : list Z :=
  match r with
  | AuthCallback => [302; 400; 500]
  | AuthRevoke => [200; 401; 500]
  | AuthVerify => [200; 401; 500]
  | TweetsLike => [200; 400; 401; 500]
  | TweetsRetweet => [200; 400; 401; 500]
  | UserStats => [200; 401; 404; 500]
  end.

(** The routes whose success body has a [tokens] field. *)
Definition carries_tokens (r : Route) : bool :=
  match r with
  | AuthVerify | TweetsLike | TweetsRetweet | UserStats => true
  | _ => false
  end.

(** The handler behind the guard of a guarded route. *)
Definition handler_of (r : Route) : Env -> Request -> Locals -> M Response :=
  match r with
  | AuthRevoke => revokeHandler
  | AuthVerify => verifyHandler
  | TweetsLike => likeHandler
  | TweetsRetweet => retweetHandler
  | UserStats => statsHandler
  | AuthCallback => fun _ _ _ => ret (Json 500 (ErrorBody ""))
  end.

(** What the guard leaves in [res.locals.tokenData]. *)
Definition pending (env : Env) (req : Request) : option TokenData :=
  if expired env req then
    match refresh_reply env with
    | Resolved t => Some (replacement req t)
    | Rejected _ => None
    end
  else None.

(** A callback with the expected [state]. *)
Definition good_callback : Request :=
  mkRequest None None None None None (Some "X") (Some "twitter-auth-state").

(** The five counts of [/user/stats] for the local id [uid]. *)
Definition stats_for (uid : string) (l : list UserAction) : Stats :=
  mkStats
    (count_where (fun a => (ua_userId a =? uid)%string) l)
    (count_where (fun a => (ua_userId a =? uid)%string
                           && (ua_action a =? "like")%string) l)
    (count_where (fun a => (ua_userId a =? uid)%string
                           && (ua_action a =? "retweet")%string) l)
    (count_where (fun a => (ua_userId a =? uid)%string
                           && Bool.eqb (ua_success a) true) l)
    (count_where (fun a => (ua_userId a =? uid)%string
                           && Bool.eqb (ua_success a) false) l).

(** The local id of the account [tid]. *)
Definition local_id (tid : string) (w : World) : option string :=
  option_map u_id (local_user tid w).

(** [s] with one more action of the given kind and outcome. *)
Definition one_more (like success : bool) (s : Stats) : Stats :=
  mkStats (totalActions s + 1)
          (likes s + (if like then 1 else 0))
          (retweets s + (if like then 0 else 1))
          (successful s + (if success then 1 else 0))
          (failed s + (if success then 0 else 1)).

(** [env] with another answer to the row lookup. *)
Definition with_findFirst (r : Result unit) (env : Env) : Env :=
  mkEnv (now env) (refresh_reply env) (exchange_reply env) (revoke_reply env)
        (findMyUser_reply env) (like_reply env) (retweet_reply env)
        (updateMany_reply env) (upsert_reply env) r (create_reply env)
        (counts_reply env) (new_id env).

(** The row the callback's upsert leaves for the identity [d]. *)
Definition upserted_user (env : Env) (d : TwitterUserData) (t : TokenData)
                         (w : World) : User :=
  match local_user (tu_id d) w with
  | Some u => updated_user env d t u
  | None => created_user env d t
  end.

(** The three rows of the seed script for the local id [uid]. *)
Definition seed_rows (uid : string) : list UserAction :=
  [mkUserAction uid "1234567890" "like" true;
   mkUserAction uid "0987654321" "retweet" true;
   mkUserAction uid "5678901234" "like" false].

(** ** [client-side-example.ts]: the browser client *)

(** [interface TokenData] of the client: the pair, and the [twitterId]
    when there is one. *)
Record ClientTokens := mkClientTokens {
  ct_accessToken : string;
  ct_refreshToken : string;
  ct_expiresAt : Z;
  ct_twitterId : option string
}.

(** A [TwitterApiClient]: [this.tokens], and what the entry
    [twitter_tokens] of [localStorage] holds. *)
Record Browser := mkBrowser {
  this_tokens : option ClientTokens;
  stored_tokens : option ClientTokens
}.

(** The constructor, in a browser whose [localStorage] holds [stored]. *)
Definition construct (stored : option ClientTokens) : Browser :=
  mkBrowser stored stored.

Definition setTokens (t : ClientTokens) (b : Browser) : Browser :=
  mkBrowser (Some t) (Some t).

Definition logout (b : Browser) : Browser := mkBrowser None None.

(** The [tokens] object of a response as the client keeps it: it has no
    [twitterId]. *)
Definition adopt (td : TokenData) : ClientTokens :=
  mkClientTokens (td_accessToken td) (td_refreshToken td) (td_expiresAt td)
                 None.

(** What happens to a [fetch]: the request and the response get through,
    or the request is lost before the backend sees it, or the response
    is lost after the backend has served the request. *)
Inductive Network :=
| Delivered
| LostRequest (e : Payload)
| LostResponse (e : Payload).

(** The body [makeAuthenticatedRequest] sends: the fields of [body], here
    the [tweetId] of [{ tweetId }] or nothing, and the tokens of the
    client; [JSON.stringify] leaves an [undefined] [twitterId] out. *)
Definition request_body (t : ClientTokens) (tweet : option string) : Request :=
  mkRequest (Some (ct_accessToken t)) (Some (ct_refreshToken t))
            (Some (ct_expiresAt t)) (ct_twitterId t) tweet None None.

(** [makeAuthenticatedRequest(endpoint, 'POST', body)] against the
    backend in the world [w].  Of the methods that use it, [likeTweet],
    [retweet] and [revokeAuth] are modelled; [verifyAuth] and
    [getUserStats] give [fetch] a body with the method GET, and what
    [fetch] does with that is not in the source. *)
Definition makeAuthenticatedRequest (net : Network) (env : Env)
    (endpoint : Route) (tweet : option string) (b : Browser) (w : World)
  : Outcome Body * Browser * World :=
  match this_tokens b with
  | None => (Exn "Not authenticated", b, w)
  | Some t =>
      match net with
      | LostRequest e => (Exn e, b, w)
      | _ =>
          match serve endpoint env (request_body t tweet) w with
          | (Val (Json _ data), w') =>
              match net with
              | LostResponse e => (Exn e, b, w')
              | _ =>
                  (Val data,
                   match body_tokens data with
                   | Some tokens => setTokens (adopt tokens) b
                   | None => b
                   end,
                   w')
              end
          | (Val (Redirect _ _ _ _), w') => (Exn "SyntaxError", b, w')
          | (Exn e, w') => (Exn e, b, w')
          end
      end
  end.

Definition likeTweet (net : Network) (env : Env) (tweet : string)
  : Browser -> World -> Outcome Body * Browser * World :=
  makeAuthenticatedRequest net env TweetsLike (Some tweet).


Definition revokeAuth (net : Network) (env : Env) (b : Browser) (w : World)
  : Outcome Body * Browser * World :=
  match makeAuthenticatedRequest net env AuthRevoke None b w with
  | (Val result, b', w') => (Val result, logout b', w')
  | (Exn e, b', w') => (Exn e, b', w')
  end.

(** The tables of the store are the same. *)
Definition same_tables (w w' : World) : Prop :=
  users w' = users w /\ userActions w' = userActions w.

(** A client that has logged in as [alice], with a pair that expired at
    500. *)
Definition stale_client : Browser :=
  construct (Some (mkClientTokens "a0" "r0" 500 (Some "tw1"))).

(** ** Vocabulary of the statements about rows *)

(** The row [u'] is the row [u] with the pair ([at_], [rt], [ex]) as its
    token columns and [stamp] as its modification time, and every other
    column as in [u]. *)
Definition carries (at_ rt : string) (ex stamp : Z) (u u' : User) : Prop :=
  u_id u' = u_id u
  /\ u_twitterId u' = u_twitterId u
  /\ u_username u' = u_username u
  /\ u_name u' = u_name u
  /\ u_profileImgUrl u' = u_profileImgUrl u
  /\ u_accessToken u' = at_
  /\ u_refreshToken u' = rt
  /\ u_tokenExpiresAt u' = ex
  /\ u_updatedAt u' = stamp.

(** What the persistence of the pair for the account [tid] makes of a
    row: a row of [tid] carries the pair, a row of another account is as
    it was. *)
Definition persisted_as (tid at_ rt : string) (ex stamp : Z) (u u' : User)
  : Prop :=
  if (u_twitterId u =? tid)%string then carries at_ rt ex stamp u u'
  else u' = u.

Definition is_action_call (c : Call) : bool :=
  match c with
  | UsersIdLike _ _ _ | UsersIdRetweets _ _ _ => true
  | _ => false
  end.

Definition is_counts_call (c : Call) : bool :=
  match c with
  | UserActionCounts _ => true
  | _ => false
  end.

(** A stored row of the second account. *)
Definition bob : User :=
  mkUser "u7" "tw2" (Some "bob") None None "b0" "s0" 700 2.

Definition two_users : World := mkWorld [alice; bob] [] None [].

(** A like of [alice] with a stale pair that is not the stored one. *)
Definition other_pair_like : Request :=
  mkRequest (Some "a9") (Some "r9") (Some 500) (Some "tw1") (Some "t9")
            None None.

(** With [expiresAt: 0], no refresh call is attempted and the access
    token of the request is the one sent with the downstream call. *)
Definition zero_expiry_sends_supplied_token : Prop :=
  forall env req w l w1 header w2,
    truthy_str (accessToken req) = true ->
    truthy_str (refreshToken req) = true ->
    expiresAt req = Some 0 ->
    withAuth env req w = (Val (Next l), w1) ->
    getAuthHeader env w1 = (Val header, w2) ->
    header = str (accessToken req)
    /\ refresh_calls (calls w2) = refresh_calls (calls w).

(** * Properties *)

(** ** Running the monad *)

Ltac run :=
  unfold guarded, withAuth, callbackHandler, revokeHandler, verifyHandler,
    likeHandler, retweetHandler, actionHandler, statsHandler,
    refreshAccessToken, requestAccessToken, revokeAccessToken, findMyUser,
    usersIdLike, usersIdRetweets, user_updateMany, user_findFirst,
    user_upsert, userAction_create, userAction_createMany, userAction_counts,
    data_id, log, set_users, set_userActions, set_token, await, try_catch,
    bind, ret, throw, get, modify;
  cbn [fst snd users userActions authClient_token calls].

(** ** The Token Guard, branch by branch *)

Section Guard.

Variables (env : Env) (req : Request) (w : World).

Lemma withAuth_missing :
  truthy_str (accessToken req) = false
  \/ truthy_str (refreshToken req) = false ->
  withAuth env req w
  = (Val (Sent (Json 401 (ErrorBody "Authentication required"))), w).
Proof.
  intros [H | H]; run; rewrite H; cbn; try reflexivity.
  destruct (truthy_str (accessToken req)); reflexivity.
Qed.

Hypothesis Haccess : truthy_str (accessToken req) = true.
Hypothesis Hrefresh : truthy_str (refreshToken req) = true.

Lemma withAuth_not_expired :
  expired env req = false ->
  withAuth env req w
  = (Val (Next (locals_of req None)),
     mkWorld (users w) (userActions w) (Some (supplied req)) (calls w)).
Proof.
  unfold expired. intros H. run. rewrite Haccess, Hrefresh, H. reflexivity.
Qed.

Lemma withAuth_refresh_rejected (e : Payload) :
  expired env req = true ->
  refresh_reply env = Rejected e ->
  withAuth env req w
  = (Val (Sent (Json 401 (ErrorBody "Authentication failed"))),
     mkWorld (users w) (userActions w) (Some (supplied req))
             (calls w ++ [RefreshAccessToken (refreshToken req)])).
Proof.
  unfold expired. intros H Hr. run.
  rewrite Haccess, Hrefresh, H, Hr. reflexivity.
Qed.

Lemma withAuth_refresh_no_id (t : Refreshed) :
  expired env req = true ->
  refresh_reply env = Resolved t ->
  truthy_str (twitterId req) = false ->
  withAuth env req w
  = (Val (Next (locals_of req (Some (replacement req t)))),
     mkWorld (users w) (userActions w) (Some (refreshed_token t))
             (calls w ++ [RefreshAccessToken (refreshToken req)])).
Proof.
  unfold expired, locals_of. intros H Hr Hid. run.
  rewrite Haccess, Hrefresh, H, Hr, Hid. reflexivity.
Qed.

Lemma withAuth_refresh_persisted (t : Refreshed) :
  expired env req = true ->
  refresh_reply env = Resolved t ->
  truthy_str (twitterId req) = true ->
  updateMany_reply env = Resolved tt ->
  withAuth env req w
  = (Val (Next (locals_of req (Some (replacement req t)))),
     mkWorld (map (persisted env req t) (users w)) (userActions w)
             (Some (refreshed_token t))
             (calls w ++ [RefreshAccessToken (refreshToken req);
                          persist_call req t])).
Proof.
  unfold expired, locals_of. intros H Hr Hid Hu. run.
  rewrite Haccess, Hrefresh, H, Hr, Hid, Hu. cbn.
  rewrite <- app_assoc. reflexivity.
Qed.

Lemma withAuth_refresh_persist_rejected (t : Refreshed) (e : Payload) :
  expired env req = true ->
  refresh_reply env = Resolved t ->
  truthy_str (twitterId req) = true ->
  updateMany_reply env = Rejected e ->
  withAuth env req w
  = (Val (Sent (Json 401 (ErrorBody "Authentication failed"))),
     mkWorld (users w) (userActions w) (Some (refreshed_token t))
             (calls w ++ [RefreshAccessToken (refreshToken req);
                          persist_call req t])).
Proof.
  unfold expired. intros H Hr Hid Hu. run.
  rewrite Haccess, Hrefresh, H, Hr, Hid, Hu. cbn.
  rewrite <- app_assoc. reflexivity.
Qed.

End Guard.

(** When the guard lets a request through, the handle is built on
    [authClient], [res.locals.twitterId] is the [twitterId] of the body
    when that is truthy, and the action log is as before. *)
Lemma withAuth_next env req w l w1 :
  withAuth env req w = (Val (Next l), w1) ->
  l_twitterClient l = OnAuthClient
  /\ l_twitterId l = (if truthy_str (twitterId req) then twitterId req
                      else None)
  /\ userActions w1 = userActions w
  /\ truthy_str (accessToken req) = true
  /\ truthy_str (refreshToken req) = true.
Proof.
  destruct (truthy_str (accessToken req)) eqn:Ha;
    [| rewrite withAuth_missing by auto; discriminate].
  destruct (truthy_str (refreshToken req)) eqn:Hr;
    [| rewrite withAuth_missing by auto; discriminate].
  destruct (expired env req) eqn:He.
  - destruct (refresh_reply env) as [t | e] eqn:Hrep.
    + destruct (truthy_str (twitterId req)) eqn:Hid.
      * destruct (updateMany_reply env) as [[] | e] eqn:Hup.
        -- rewrite (withAuth_refresh_persisted env req w Ha Hr t He Hrep Hid Hup).
           intros [= <- <-]. unfold locals_of. rewrite Hid. cbn. auto.
        -- rewrite (withAuth_refresh_persist_rejected env req w Ha Hr t e
                      He Hrep Hid Hup).
           discriminate.
      * rewrite (withAuth_refresh_no_id env req w Ha Hr t He Hrep Hid).
        intros [= <- <-]. unfold locals_of. rewrite Hid. cbn. auto.
    + rewrite (withAuth_refresh_rejected env req w Ha Hr e He Hrep).
      discriminate.
  - rewrite (withAuth_not_expired env req w Ha Hr He).
    intros [= <- <-]. cbn. auto.
Qed.

(** ** The claims about the guard *)

(** C1, as the code has it: when the refresh has succeeded, a [twitterId]
    was supplied and the store rejects the update of the User row, the
    guard answers 401 "Authentication failed": [next()] is not called,
    whatever the handler behind the guard is, the response carries no
    token pair, and the User rows are as before. *)
Theorem withAuth_persist_failure_aborts env req w t e :
  truthy_str (accessToken req) = true ->
  truthy_str (refreshToken req) = true ->
  expired env req = true ->
  refresh_reply env = Resolved t ->
  truthy_str (twitterId req) = true ->
  updateMany_reply env = Rejected e ->
  exists w',
    withAuth env req w
    = (Val (Sent (Json 401 (ErrorBody "Authentication failed"))), w')
    /\ (forall handler,
          guarded handler env req w
          = (Val (Json 401 (ErrorBody "Authentication failed")), w'))
    /\ users w' = users w
    /\ calls w' = calls w ++ [RefreshAccessToken (refreshToken req);
                              persist_call req t].
Proof.
  intros Ha Hr He Hrep Hid Hup.
  pose proof (withAuth_refresh_persist_rejected env req w Ha Hr t e
                He Hrep Hid Hup) as E.
  eexists. split; [exact E |]. split; [| split; reflexivity].
  intros handler. unfold guarded, bind. rewrite E. reflexivity.
Qed.

Lemma withAuth_persist_failure_aborts_witness :
  exists w',
    withAuth store_down stale_like one_user
    = (Val (Sent (Json 401 (ErrorBody "Authentication failed"))), w')
    /\ (forall handler,
          guarded handler store_down stale_like one_user
          = (Val (Json 401 (ErrorBody "Authentication failed")), w'))
    /\ users w' = users one_user
    /\ calls w' = calls one_user
                  ++ [RefreshAccessToken (refreshToken stale_like);
                      persist_call stale_like (mkRefreshed "a1" None 9000)].
Proof.
  apply (withAuth_persist_failure_aborts store_down stale_like one_user
           (mkRefreshed "a1" None 9000) "store unavailable");
    reflexivity.
Defined.

(** C1, as worded, fails: with the store down, the stale like of [alice]
    is answered 401 by the guard. *)
Lemma persist_failure_not_tolerated :
  fst (withAuth store_down stale_like one_user)
  = Val (Sent (Json 401 (ErrorBody "Authentication failed")))
  /\ ~ persist_failure_tolerated.
Proof.
  split; [reflexivity |].
  intros H.
  destruct (H store_down stale_like one_user (mkRefreshed "a1" None 9000)
              "store unavailable") as (l & w' & E & _);
    try reflexivity.
  discriminate E.
Qed.

Lemma expired_past env req e :
  expiresAt req = Some e -> e <> 0 -> e <= now env -> expired env req = true.
Proof.
  intros E Hz Hle. unfold expired. rewrite E. cbn.
  apply andb_true_intro. split.
  - apply negb_true_iff, Z.eqb_neq, Hz.
  - apply Z.geb_le. lia.
Qed.

Lemma expired_zero env req : expiresAt req = Some 0 -> expired env req = false.
Proof. intros E. unfold expired. rewrite E. reflexivity. Qed.

Lemma expired_absent env req : expiresAt req = None -> expired env req = false.
Proof. intros E. unfold expired. rewrite E. reflexivity. Qed.

(** C2, as the code has it: for a request with both tokens and an
    [expiresAt] that is not 0 and not after the current time, the guard
    makes exactly one refresh call; it lets the request through when the
    refresh succeeds and the persistence, if any, does; and whenever it
    lets the request through, the access token of the refresh answer is
    the one the client handle sends. *)
Theorem withAuth_refreshes_once env req w e :
  truthy_str (accessToken req) = true ->
  truthy_str (refreshToken req) = true ->
  expiresAt req = Some e ->
  e <> 0 ->
  e <= now env ->
  (exists cs,
     calls (snd (withAuth env req w)) = calls w ++ cs
     /\ refresh_calls cs = 1%nat)
  /\ (forall t,
        refresh_reply env = Resolved t ->
        truthy_str (twitterId req) = false
        \/ updateMany_reply env = Resolved tt ->
        exists l, fst (withAuth env req w) = Val (Next l))
  /\ (forall l,
        fst (withAuth env req w) = Val (Next l) ->
        exists t,
          refresh_reply env = Resolved t
          /\ client_bearer (l_twitterClient l) (snd (withAuth env req w))
             = Some (rf_access_token t)).
Proof.
  intros Ha Hr E Hz Hle.
  pose proof (expired_past env req e E Hz Hle) as He.
  destruct (refresh_reply env) as [t | err] eqn:Hrep.
  - destruct (truthy_str (twitterId req)) eqn:Hid.
    + destruct (updateMany_reply env) as [[] | err] eqn:Hup.
      * rewrite (withAuth_refresh_persisted env req w Ha Hr t He Hrep Hid Hup).
        cbn [fst snd calls]. repeat split.
        -- eexists. split; reflexivity.
        -- intros; eexists; reflexivity.
        -- intros l [= <-]. exists t. split; reflexivity.
      * rewrite (withAuth_refresh_persist_rejected env req w Ha Hr t err
                   He Hrep Hid Hup).
        cbn [fst snd calls]. repeat split.
        -- eexists. split; reflexivity.
        -- intros t' _ [H | H]; discriminate H.
        -- intros l H; discriminate H.
    + rewrite (withAuth_refresh_no_id env req w Ha Hr t He Hrep Hid).
      cbn [fst snd calls]. repeat split.
      * eexists. split; reflexivity.
      * intros; eexists; reflexivity.
      * intros l [= <-]. exists t. split; reflexivity.
  - rewrite (withAuth_refresh_rejected env req w Ha Hr err He Hrep).
    cbn [fst snd calls]. repeat split.
    + eexists. split; reflexivity.
    + intros t H; discriminate H.
    + intros l H; discriminate H.
Qed.

Lemma withAuth_refreshes_once_witness :
  (exists cs,
     calls (snd (withAuth calm stale_like one_user)) = calls one_user ++ cs
     /\ refresh_calls cs = 1%nat)
  /\ (forall t,
        refresh_reply calm = Resolved t ->
        truthy_str (twitterId stale_like) = false
        \/ updateMany_reply calm = Resolved tt ->
        exists l, fst (withAuth calm stale_like one_user) = Val (Next l))
  /\ (forall l,
        fst (withAuth calm stale_like one_user) = Val (Next l) ->
        exists t,
          refresh_reply calm = Resolved t
          /\ client_bearer (l_twitterClient l)
                           (snd (withAuth calm stale_like one_user))
             = Some (rf_access_token t)).
Proof.
  apply (withAuth_refreshes_once calm stale_like one_user 500);
    [reflexivity | reflexivity | reflexivity | discriminate | discriminate].
Defined.

(** C2, as worded, fails at [expiresAt: 0]: the pair is in the past at
    time 1000 and the guard makes no call at all. *)
Lemma past_expiry_not_always_refreshed :
  expiresAt zero_like = Some 0
  /\ 0 <= now calm
  /\ calls (snd (withAuth calm zero_like one_user)) = calls one_user
  /\ ~ past_expiry_always_refreshed.
Proof.
  repeat split; try reflexivity; try discriminate.
  intros H.
  destruct (H calm zero_like one_user 0) as (cs & E & N);
    try reflexivity; try discriminate.
  cbn in E. subst cs. discriminate N.
Qed.

Lemma Forall2_map_self {A} (R : A -> A -> Prop) (f : A -> A) (l : list A) :
  (forall x, R x (f x)) -> Forall2 R l (map f l).
Proof.
  intros H. induction l as [| x l IH]; cbn; constructor; auto.
Qed.

Lemma persisted_is_persisted_as env req t u :
  persisted_as (str (twitterId req)) (rf_access_token t)
               (js_or (rf_refresh_token t) (str (refreshToken req)))
               (rf_expires_at t) (now env) u (persisted env req t u).
Proof.
  unfold persisted_as, persisted.
  destruct (u_twitterId u =? str (twitterId req))%string;
    [cbn; repeat split | reflexivity].
Qed.

(** C3: when the refresh answer carries no refresh token, the replacement
    pair handed to the handler keeps the refresh token of the request,
    and so do the [updateMany] call and, once it is through, the User
    table: row by row, a row of the supplied [twitterId] has the
    refresh token of the request as its [refreshToken], with the
    refreshed access token and expiry, and every other row is as it
    was. *)
Theorem withAuth_keeps_refresh_token env req w t :
  truthy_str (accessToken req) = true ->
  truthy_str (refreshToken req) = true ->
  expired env req = true ->
  refresh_reply env = Resolved t ->
  rf_refresh_token t = None ->
  (forall l,
     fst (withAuth env req w) = Val (Next l) ->
     l_tokenData l = Some (retained req t))
  /\ (truthy_str (twitterId req) = false ->
      withAuth env req w
      = (Val (Next (locals_of req (Some (retained req t)))),
         mkWorld (users w) (userActions w) (Some (refreshed_token t))
                 (calls w ++ [RefreshAccessToken (refreshToken req)])))
  /\ (truthy_str (twitterId req) = true ->
      In (UserUpdateMany (str (twitterId req)) (rf_access_token t)
                         (str (refreshToken req)) (rf_expires_at t))
         (calls (snd (withAuth env req w)))
      /\ (updateMany_reply env = Resolved tt ->
          fst (withAuth env req w)
          = Val (Next (locals_of req (Some (retained req t))))
          /\ Forall2 (persisted_as (str (twitterId req)) (rf_access_token t)
                                   (str (refreshToken req))
                                   (rf_expires_at t) (now env))
                     (users w) (users (snd (withAuth env req w))))).
Proof.
  intros Ha Hr He Hrep Hnone.
  assert (Hk : replacement req t = retained req t).
  { unfold replacement, retained. rewrite Hnone. reflexivity. }
  assert (Hp : persist_call req t
               = UserUpdateMany (str (twitterId req)) (rf_access_token t)
                   (str (refreshToken req)) (rf_expires_at t)).
  { unfold persist_call. rewrite Hnone. reflexivity. }
  split; [| split].
  - destruct (truthy_str (twitterId req)) eqn:Hid.
    + destruct (updateMany_reply env) as [[] | err] eqn:Hup.
      * rewrite (withAuth_refresh_persisted env req w Ha Hr t He Hrep Hid Hup).
        intros l [= <-]. cbn. now rewrite Hk.
      * rewrite (withAuth_refresh_persist_rejected env req w Ha Hr t err
                   He Hrep Hid Hup).
        intros l H; discriminate H.
    + rewrite (withAuth_refresh_no_id env req w Ha Hr t He Hrep Hid).
      intros l [= <-]. cbn. now rewrite Hk.
  - intros Hid.
    rewrite (withAuth_refresh_no_id env req w Ha Hr t He Hrep Hid).
    now rewrite Hk.
  - intros Hid. split.
    + destruct (updateMany_reply env) as [[] | err] eqn:Hup.
      * rewrite (withAuth_refresh_persisted env req w Ha Hr t He Hrep Hid Hup).
        cbn [snd calls]. rewrite <- Hp. apply in_or_app. right. cbn. auto.
      * rewrite (withAuth_refresh_persist_rejected env req w Ha Hr t err
                   He Hrep Hid Hup).
        cbn [snd calls]. rewrite <- Hp. apply in_or_app. right. cbn. auto.
    + intros Hup.
      rewrite (withAuth_refresh_persisted env req w Ha Hr t He Hrep Hid Hup).
      cbn [fst snd users]. rewrite Hk. split; [reflexivity |].
      apply Forall2_map_self. intros u.
      pose proof (persisted_is_persisted_as env req t u) as H.
      rewrite Hnone in H. exact H.
Qed.

Lemma withAuth_keeps_refresh_token_witness :
  (forall l,
     fst (withAuth calm other_pair_like two_users) = Val (Next l) ->
     l_tokenData l = Some (mkTokenData "a1" "r9" 9000))
  /\ In (UserUpdateMany "tw1" "a1" "r9" 9000)
        (calls (snd (withAuth calm other_pair_like two_users)))
  /\ Forall2 (persisted_as "tw1" "a1" "r9" 9000 1000)
             [alice; bob]
             (users (snd (withAuth calm other_pair_like two_users))).
Proof.
  destruct (withAuth_keeps_refresh_token calm other_pair_like two_users
              (mkRefreshed "a1" None 9000)
              eq_refl eq_refl eq_refl eq_refl eq_refl)
    as (Hl & _ & Hp).
  destruct (Hp eq_refl) as (Hc & Hu).
  destruct (Hu eq_refl) as (_ & Hrows).
  split; [exact Hl | split; [exact Hc | exact Hrows]].
Defined.

(** C4: on every guarded route, a request whose body lacks the access
    token or the refresh token (absent or empty) is answered 401
    "Authentication required", and nothing else happens: the world,
    with its log of provider and store calls, is the one before. *)
Theorem guard_rejects_missing_tokens r env req w :
  is_guarded r = true ->
  truthy_str (accessToken req) = false
  \/ truthy_str (refreshToken req) = false ->
  serve r env req w
  = (Val (Json 401 (ErrorBody "Authentication required")), w).
Proof.
  intros Hg Hm.
  destruct r; try discriminate Hg; cbn [serve]; unfold guarded, bind;
    rewrite (withAuth_missing env req w Hm); reflexivity.
Qed.

Lemma guard_rejects_missing_tokens_witness :
  serve TweetsLike calm bare_like one_user
  = (Val (Json 401 (ErrorBody "Authentication required")), one_user).
Proof.
  apply (guard_rejects_missing_tokens TweetsLike calm bare_like one_user);
    [reflexivity | right; reflexivity].
Defined.

(** C7: a callback whose [state] is not the constant
    "twitter-auth-state" is answered 400, and nothing else happens: no
    token exchange, no upsert, the world is the one before. *)
Theorem callback_rejects_foreign_state env req w :
  state req <> Some "twitter-auth-state" ->
  callbackHandler env req w
  = (Val (Json 400 (ErrorBody "Invalid state parameter")), w).
Proof.
  intros Hs. run.
  replace (strict_eq (state req) STATE) with false; [reflexivity |].
  symmetry. unfold strict_eq, STATE.
  destruct (state req) as [s |]; [| reflexivity].
  apply String.eqb_neq. congruence.
Qed.

Lemma callback_rejects_foreign_state_witness :
  callbackHandler calm forged_callback one_user
  = (Val (Json 400 (ErrorBody "Invalid state parameter")), one_user).
Proof.
  apply (callback_rejects_foreign_state calm forged_callback one_user).
  discriminate.
Defined.

(** C8, as the code has it: with [expiresAt: 0] the guard behaves as
    without [expiresAt]: it makes no call, lets the request through
    without a replacement pair, and leaves the access token of the
    request in the client handle. *)
Theorem withAuth_zero_expiry_as_absent env req w :
  truthy_str (accessToken req) = true ->
  truthy_str (refreshToken req) = true ->
  expiresAt req = Some 0 ->
  withAuth env req w
  = (Val (Next (locals_of req None)),
     mkWorld (users w) (userActions w) (Some (supplied req)) (calls w))
  /\ client_bearer OnAuthClient (snd (withAuth env req w))
     = Some (str (accessToken req))
  /\ refresh_calls (calls (snd (withAuth env req w)))
     = refresh_calls (calls w)
  /\ fst (withAuth env req w)
     = fst (withAuth env
              (mkRequest (accessToken req) (refreshToken req) None
                         (twitterId req) (tweetId req) (code req) (state req))
              w).
Proof.
  intros Ha Hr E.
  rewrite (withAuth_not_expired env req w Ha Hr (expired_zero env req E)).
  repeat split.
  rewrite withAuth_not_expired; [reflexivity | exact Ha | exact Hr |].
  apply expired_absent. reflexivity.
Qed.

Lemma withAuth_zero_expiry_as_absent_witness :
  withAuth calm zero_like one_user
  = (Val (Next (locals_of zero_like None)),
     mkWorld [alice] [] (Some (supplied zero_like)) []).
Proof.
  apply (withAuth_zero_expiry_as_absent calm zero_like one_user);
    reflexivity.
Defined.

(** C8, as worded, fails past the guard: with [expiresAt: 0] the guard
    makes no call and leaves the access token of the request in
    [authClient], but the token then counts as expired for the SDK,
    which refreshes it when the handler's call asks for its header: the
    downstream call is sent with the refreshed token, after a refresh
    call. *)
Lemma zero_expiry_downstream_refreshed :
  withAuth calm zero_like one_user
  = (Val (Next (locals_of zero_like None)),
     mkWorld [alice] [] (Some (mkToken "a0" (Some "r0") (Some 0))) [])
  /\ getAuthHeader calm (snd (withAuth calm zero_like one_user))
     = (Val "a1",
        mkWorld [alice] [] (Some (mkToken "a1" None (Some 9000)))
                [RefreshAccessToken (Some "r0")])
  /\ ~ zero_expiry_sends_supplied_token.
Proof.
  split; [reflexivity |]. split; [reflexivity |].
  intros H.
  destruct (H calm zero_like one_user (locals_of zero_like None)
              (snd (withAuth calm zero_like one_user)) "a1"
              (snd (getAuthHeader calm
                      (snd (withAuth calm zero_like one_user))))
              eq_refl eq_refl eq_refl eq_refl eq_refl) as (E & _).
  discriminate E.
Qed.

(** C9: the revoke handler makes one call, the provider's revoke, and no
    store call: whatever the provider answers, the User rows and the
    UserAction rows are the ones before. *)
Theorem revoke_leaves_store env req l w :
  users (snd (revokeHandler env req l w)) = users w
  /\ userActions (snd (revokeHandler env req l w)) = userActions w
  /\ calls (snd (revokeHandler env req l w))
     = calls w ++ [RevokeAccessToken (bearer w)]
  /\ fst (revokeHandler env req l w)
     = Val (match revoke_reply env with
            | Resolved response => Json 200 (RevokeBody true response)
            | Rejected _ => Json 500 (ErrorBody "Failed to revoke token")
            end).
Proof.
  run. destruct (revoke_reply env); cbn; repeat split.
Qed.

(** ** The action handlers *)

Section Action.

(** A provider call of an action handler: it is logged with the bearer
    of the handle and answers what the environment says. *)
Variable call : Env -> Client -> string -> string -> M Payload.
Variable reply : Env -> Result Payload.
Variable sent : option string -> string -> string -> Call.
Hypothesis call_runs :
  forall env c userId tweet w,
    call env c userId tweet w
    = (match reply env with
       | Resolved a => Val a
       | Rejected e => Exn e
       end,
       mkWorld (users w) (userActions w) (authClient_token w)
               (calls w ++ [sent (client_bearer c w) userId tweet])).

Variables (action failure : string).
Variables (env : Env) (req : Request) (l : Locals) (w : World).

Hypothesis Htweet : truthy_str (tweetId req) = true.

Lemma actionHandler_response :
  fst (actionHandler call action failure env req l w)
  = Val (if fails_elsewhere env l w
         then Json 500 (ErrorBody failure)
         else Json 200 (ActionBody (resolved (reply env))
                                   (payload (reply env))
                                   (l_tokenData l))).
Proof.
  unfold fails_elsewhere, logging_fails, local_user. run.
  rewrite Htweet. cbn.
  destruct (findMyUser_reply env) as [[d |] | e]; cbn; try reflexivity.
  rewrite call_runs.
  destruct (reply env) as [a | e]; cbn;
    destruct (truthy_str (l_twitterId l)); cbn; try reflexivity;
    destruct (findFirst_reply env) as [[] | e']; cbn; try reflexivity;
    destruct (find _ (users w)); cbn; try reflexivity;
    destruct (create_reply env) as [[] | e'']; reflexivity.
Qed.

Lemma actionHandler_logs d u :
  truthy_str (l_twitterId l) = true ->
  findMyUser_reply env = Resolved (Some d) ->
  local_user (tu_id d) w = Some u ->
  findFirst_reply env = Resolved tt ->
  create_reply env = Resolved tt ->
  userActions (snd (actionHandler call action failure env req l w))
  = userActions w
    ++ [mkUserAction (u_id u) (str (tweetId req)) action
                     (resolved (reply env))].
Proof.
  unfold local_user. intros Hid Hme Hu Hf Hc. run.
  rewrite Htweet, Hme. cbn. rewrite call_runs.
  destruct (reply env) as [a | e]; cbn;
    rewrite Hid, Hf; cbn; rewrite Hu, Hc; reflexivity.
Qed.

Lemma actionHandler_skips_logging :
  truthy_str (l_twitterId l) = false ->
  userActions (snd (actionHandler call action failure env req l w))
  = userActions w.
Proof.
  intros Hid. run. rewrite Htweet. cbn.
  destruct (findMyUser_reply env) as [[d |] | e]; cbn; try reflexivity.
  rewrite call_runs.
  destruct (reply env) as [a | e]; cbn; rewrite Hid; reflexivity.
Qed.

End Action.

Lemma usersIdLike_runs env c userId tweet w :
  usersIdLike env c userId tweet w
  = (match like_reply env with
     | Resolved a => Val a
     | Rejected e => Exn e
     end,
     mkWorld (users w) (userActions w) (authClient_token w)
             (calls w ++ [UsersIdLike (client_bearer c w) userId tweet])).
Proof. run. destruct (like_reply env); reflexivity. Qed.

Lemma usersIdRetweets_runs env c userId tweet w :
  usersIdRetweets env c userId tweet w
  = (match retweet_reply env with
     | Resolved a => Val a
     | Rejected e => Exn e
     end,
     mkWorld (users w) (userActions w) (authClient_token w)
             (calls w ++ [UsersIdRetweets (client_bearer c w) userId tweet])).
Proof. run. destruct (retweet_reply env); reflexivity. Qed.

Lemma guarded_next handler env req w l w1 :
  withAuth env req w = (Val (Next l), w1) ->
  guarded handler env req w = handler env req l w1.
Proof. intros E. unfold guarded, bind. rewrite E. reflexivity. Qed.

Lemma actions_logged_by_route env req w l w1 d u :
  withAuth env req w = (Val (Next l), w1) ->
  truthy_str (tweetId req) = true ->
  truthy_str (twitterId req) = true ->
  findMyUser_reply env = Resolved (Some d) ->
  local_user (tu_id d) w1 = Some u ->
  findFirst_reply env = Resolved tt ->
  create_reply env = Resolved tt ->
  userActions (snd (serve TweetsLike env req w))
  = userActions w
    ++ [mkUserAction (u_id u) (str (tweetId req)) "like"
                     (resolved (like_reply env))]
  /\ userActions (snd (serve TweetsRetweet env req w))
     = userActions w
       ++ [mkUserAction (u_id u) (str (tweetId req)) "retweet"
                        (resolved (retweet_reply env))].
Proof.
  intros Hg Ht Hid Hme Hu Hf Hc.
  destruct (withAuth_next env req w l w1 Hg) as (_ & Hl & Hacts & _).
  rewrite Hid in Hl.
  assert (Hlid : truthy_str (l_twitterId l) = true) by now rewrite Hl.
  cbn [serve]. rewrite !(guarded_next _ env req w l w1 Hg), <- Hacts.
  split.
  - apply (actionHandler_logs usersIdLike like_reply UsersIdLike
             usersIdLike_runs) with (d := d); assumption.
  - apply (actionHandler_logs usersIdRetweets retweet_reply UsersIdRetweets
             usersIdRetweets_runs) with (d := d); assumption.
Qed.

(** C5, as the code has it: a like or retweet request that passes the
    guard and carries a [tweetId] and a [twitterId], whose acting account
    the provider resolves to one with a local User row, and whose two
    store calls go through, appends exactly one UserAction row, which
    carries the outcome of the provider action, success or failure. *)
Theorem action_logged_once env req w l w1 d u :
  withAuth env req w = (Val (Next l), w1) ->
  truthy_str (tweetId req) = true ->
  truthy_str (twitterId req) = true ->
  findMyUser_reply env = Resolved (Some d) ->
  local_user (tu_id d) w1 = Some u ->
  findFirst_reply env = Resolved tt ->
  create_reply env = Resolved tt ->
  userActions (snd (serve TweetsLike env req w))
  = userActions w
    ++ [mkUserAction (u_id u) (str (tweetId req)) "like"
                     (resolved (like_reply env))]
  /\ userActions (snd (serve TweetsRetweet env req w))
     = userActions w
       ++ [mkUserAction (u_id u) (str (tweetId req)) "retweet"
                        (resolved (retweet_reply env))].
Proof. exact (actions_logged_by_route env req w l w1 d u). Qed.

Lemma action_logged_once_witness :
  userActions (snd (serve TweetsLike action_refused stale_like one_user))
  = [mkUserAction "u1" "t9" "like" false]
  /\ userActions (snd (serve TweetsRetweet action_refused stale_like one_user))
     = [mkUserAction "u1" "t9" "retweet" false].
Proof.
  apply (action_logged_once action_refused stale_like one_user
           (locals_of stale_like
              (Some (replacement stale_like (mkRefreshed "a1" None 9000))))
           (snd (withAuth action_refused stale_like one_user))
           alice_data
           (with_tokens "a1" "r0" 9000 1000 alice));
    reflexivity.
Defined.

(** C5, as worded, fails: a like without [twitterId] in its body passes
    the guard, the provider resolves it to [alice], who has a local row,
    the like succeeds, and no row is appended. *)
Lemma like_without_twitterId_not_logged :
  fst (serve TweetsLike calm anonymous_like one_user)
  = Val (Json 200 (ActionBody true "liked" None))
  /\ local_user "tw1" (snd (withAuth calm anonymous_like one_user))
     = Some alice
  /\ userActions (snd (serve TweetsLike calm anonymous_like one_user)) = []
  /\ ~ every_like_logged.
Proof.
  repeat split.
  intros H.
  destruct (H calm anonymous_like one_user
              (locals_of anonymous_like None)
              (snd (withAuth calm anonymous_like one_user))
              alice_data alice) as (row & E & _);
    try reflexivity.
  discriminate E.
Qed.

(** C6: in a like or retweet request that passes the guard and carries a
    [tweetId], a rejected provider action is caught: unless something
    else in the handler fails, the response is a 200 whose body has
    [success: false] and the provider's error as [data]; and a 500 is
    sent only when something else in the handler fails. *)
Theorem action_failure_is_data env req w l w1 :
  withAuth env req w = (Val (Next l), w1) ->
  truthy_str (tweetId req) = true ->
  (forall e,
     like_reply env = Rejected e ->
     fails_elsewhere env l w1 = false ->
     fst (serve TweetsLike env req w)
     = Val (Json 200 (ActionBody false e (l_tokenData l))))
  /\ (forall e,
        retweet_reply env = Rejected e ->
        fails_elsewhere env l w1 = false ->
        fst (serve TweetsRetweet env req w)
        = Val (Json 200 (ActionBody false e (l_tokenData l))))
  /\ (forall r,
        r = TweetsLike \/ r = TweetsRetweet ->
        exists resp,
          fst (serve r env req w) = Val resp
          /\ (status_of resp = 500 <-> fails_elsewhere env l w1 = true)
          /\ (status_of resp = 200 <-> fails_elsewhere env l w1 = false)).
Proof.
  intros Hg Ht.
  pose proof (actionHandler_response usersIdLike like_reply UsersIdLike
                usersIdLike_runs "like" "Failed to like tweet"
                env req l w1 Ht) as HL.
  pose proof (actionHandler_response usersIdRetweets retweet_reply
                UsersIdRetweets usersIdRetweets_runs "retweet"
                "Failed to retweet" env req l w1 Ht) as HR.
  cbn [serve]. rewrite !(guarded_next _ env req w l w1 Hg).
  fold likeHandler in HL. fold retweetHandler in HR.
  split; [| split].
  - intros e He Hf. rewrite HL, Hf, He. reflexivity.
  - intros e He Hf. rewrite HR, Hf, He. reflexivity.
  - intros r [-> | ->]; cbn [serve];
      rewrite (guarded_next _ env req w l w1 Hg);
      [rewrite HL | rewrite HR];
      destruct (fails_elsewhere env l w1); eexists;
      (split; [reflexivity |]); cbn; split; split;
      intros; congruence.
Qed.

Lemma action_failure_is_data_witness :
  fst (serve TweetsLike action_refused stale_like one_user)
  = Val (Json 200 (ActionBody false "forbidden"
                              (Some (mkTokenData "a1" "r0" 9000)))).
Proof.
  apply (proj1 (action_failure_is_data action_refused stale_like one_user
                  (locals_of stale_like
                     (Some (replacement stale_like
                              (mkRefreshed "a1" None 9000))))
                  (snd (withAuth action_refused stale_like one_user))
                  eq_refl eq_refl)
           "forbidden");
    reflexivity.
Defined.

(** ** What a computation keeps *)

Section Frame.

Variable R : World -> World -> Prop.
Hypothesis R_refl : forall w, R w w.
Hypothesis R_trans : forall a b c, R a b -> R b c -> R a c.

Lemma keeps_ret {A} (a : A) : keeps R (ret a).
Proof. intros w. apply R_refl. Qed.

Lemma keeps_throw {A} (e : Payload) : keeps R (@throw A e).
Proof. intros w. apply R_refl. Qed.

Lemma keeps_get : keeps R get.
Proof. intros w. apply R_refl. Qed.

Lemma keeps_await {A} (r : Result A) : keeps R (await r).
Proof. destruct r; [apply keeps_ret | apply keeps_throw]. Qed.

Lemma keeps_bind {A B} (m : M A) (k : A -> M B) :
  keeps R m -> (forall a, keeps R (k a)) -> keeps R (bind m k).
Proof.
  intros Hm Hk w. unfold bind. specialize (Hm w).
  destruct (m w) as [[a | e] w1]; cbn in *; [| exact Hm].
  eapply R_trans; [exact Hm | apply Hk].
Qed.

Lemma keeps_try_catch {A} (m : M A) (h : Payload -> M A) :
  keeps R m -> (forall e, keeps R (h e)) -> keeps R (try_catch m h).
Proof.
  intros Hm Hh w. unfold try_catch. specialize (Hm w).
  destruct (m w) as [[a | e] w1]; cbn in *; [exact Hm |].
  eapply R_trans; [exact Hm | apply Hh].
Qed.

End Frame.

Lemma grows_same w w' : userActions w' = userActions w -> grows w w'.
Proof.
  intros E. exists []. split; [rewrite E, app_nil_r; reflexivity |].
  constructor.
Qed.

Lemma grows_refl w : grows w w.
Proof. apply grows_same. reflexivity. Qed.

Lemma grows_trans a b c : grows a b -> grows b c -> grows a c.
Proof.
  intros (r1 & E1 & F1) (r2 & E2 & F2). exists (r1 ++ r2). split.
  - rewrite E2, E1. symmetry. apply app_assoc.
  - apply Forall_app. split; assumption.
Qed.

Lemma grows_log c : keeps grows (log c).
Proof. intros w. apply grows_same. reflexivity. Qed.

Lemma grows_set_users us : keeps grows (set_users us).
Proof. intros w. apply grows_same. reflexivity. Qed.

Lemma grows_set_token t : keeps grows (set_token t).
Proof. intros w. apply grows_same. reflexivity. Qed.

Lemma grows_append rows :
  Forall known_action rows ->
  keeps grows (w <- get ;; set_userActions (userActions w ++ rows)).
Proof. intros F w. exists rows. split; [reflexivity | exact F]. Qed.

(** Breaks a computation into its steps, down to the updates of the
    world. *)
Ltac frame :=
  cbv zeta;
  repeat first
    [ apply (keeps_ret grows grows_refl)
    | apply (keeps_throw grows grows_refl)
    | apply (keeps_await grows grows_refl)
    | apply (keeps_get grows grows_refl)
    | apply grows_log
    | apply grows_set_users
    | apply grows_set_token
    | apply grows_append
    | apply (keeps_bind grows grows_trans); [| intros ?]
    | apply (keeps_try_catch grows grows_trans); [| intros ?]
    | match goal with
      | |- keeps _ (if ?b then _ else _) => destruct b
      | |- keeps _ (match ?x with _ => _ end) => destruct x
      end ].

Lemma grows_withAuth env req : keeps grows (withAuth env req).
Proof.
  unfold withAuth, refreshAccessToken, user_updateMany. frame.
Qed.

Lemma grows_guarded handler env req :
  (forall l, keeps grows (handler env req l)) ->
  keeps grows (guarded handler env req).
Proof.
  intros H. unfold guarded.
  apply (keeps_bind grows grows_trans); [apply grows_withAuth |].
  intros [r | l]; [apply (keeps_ret grows grows_refl) | apply H].
Qed.

Lemma grows_actionHandler call action failure env req l :
  (forall c userId tweet, keeps grows (call env c userId tweet)) ->
  action = "like" \/ action = "retweet" ->
  keeps grows (actionHandler call action failure env req l).
Proof.
  intros Hcall K. unfold actionHandler, data_id. frame; try apply Hcall.
  constructor; [exact K | constructor].
Qed.

Lemma grows_serve r env req : keeps grows (serve r env req).
Proof.
  destruct r; cbn [serve]; try apply grows_guarded; intros.
  - unfold callbackHandler. frame.
  - unfold revokeHandler. frame.
  - unfold verifyHandler. frame.
  - apply grows_actionHandler; [| left; reflexivity].
    intros. unfold usersIdLike. frame.
  - apply grows_actionHandler; [| right; reflexivity].
    intros. unfold usersIdRetweets. frame.
  - unfold statsHandler, data_id. frame.
Qed.

Lemma grows_seed_main env : keeps grows (seed_main env).
Proof.
  unfold seed_main. frame.
  repeat (constructor; [unfold known_action; cbn; auto |]). constructor.
Qed.

(** Every row of a reachable action log is a like or a retweet. *)
Lemma reachable_known_actions w :
  reachable w -> Forall known_action (userActions w).
Proof.
  induction 1 as [us t cs | env w _ IH | r env req w _ IH].
  - constructor.
  - destruct (grows_seed_main env w) as (rows & E & F).
    rewrite E. apply Forall_app. split; assumption.
  - destruct (grows_serve r env req w) as (rows & E & F).
    rewrite E. apply Forall_app. split; assumption.
Qed.

(** ** Counting *)

Lemma filter_length_split {A} (p q r : A -> bool) (l : list A) :
  Forall (fun a => p a = xorb (q a) (r a) /\ q a && r a = false) l ->
  length (filter p l) = (length (filter q l) + length (filter r l))%nat.
Proof.
  induction 1 as [| a l [Hp Hqr] _ IH]; [reflexivity |].
  cbn. rewrite Hp.
  destruct (q a), (r a); cbn in *; try discriminate; lia.
Qed.

Lemma count_where_split (p q r : UserAction -> bool) l :
  Forall (fun a => p a = xorb (q a) (r a) /\ q a && r a = false) l ->
  count_where p l = count_where q l + count_where r l.
Proof.
  intros F. unfold count_where.
  rewrite (filter_length_split p q r l F). apply Nat2Z.inj_add.
Qed.

Lemma counts_by_action uid l :
  Forall known_action l ->
  count_where (fun a => (ua_userId a =? uid)%string) l
  = count_where (fun a => (ua_userId a =? uid)%string
                          && (ua_action a =? "like")%string) l
    + count_where (fun a => (ua_userId a =? uid)%string
                            && (ua_action a =? "retweet")%string) l.
Proof.
  intros F. apply count_where_split.
  eapply Forall_impl; [| exact F].
  intros a [K | K]; rewrite K; destruct (ua_userId a =? uid)%string;
    split; reflexivity.
Qed.

Lemma counts_by_success uid l :
  count_where (fun a => (ua_userId a =? uid)%string) l
  = count_where (fun a => (ua_userId a =? uid)%string
                          && Bool.eqb (ua_success a) true) l
    + count_where (fun a => (ua_userId a =? uid)%string
                            && Bool.eqb (ua_success a) false) l.
Proof.
  apply count_where_split. apply Forall_forall. intros a _.
  destruct (ua_userId a =? uid)%string, (ua_success a); split; reflexivity.
Qed.

(** ** The stats route *)

(** The guard ends with one of its two 401 responses or lets the request
    through; it never throws. *)
Lemma withAuth_outcome env req w :
  (exists msg w1,
     withAuth env req w = (Val (Sent (Json 401 (ErrorBody msg))), w1))
  \/ (exists l w1, withAuth env req w = (Val (Next l), w1)).
Proof.
  destruct (truthy_str (accessToken req)) eqn:Ha;
    [| left; rewrite withAuth_missing by auto; eauto].
  destruct (truthy_str (refreshToken req)) eqn:Hr;
    [| left; rewrite withAuth_missing by auto; eauto].
  destruct (expired env req) eqn:He;
    [| right; rewrite (withAuth_not_expired env req w Ha Hr He); eauto].
  destruct (refresh_reply env) as [t | e] eqn:Hrep;
    [| left; rewrite (withAuth_refresh_rejected env req w Ha Hr e He Hrep);
       eauto].
  destruct (truthy_str (twitterId req)) eqn:Hid;
    [| right; rewrite (withAuth_refresh_no_id env req w Ha Hr t He Hrep Hid);
       eauto].
  destruct (updateMany_reply env) as [[] | e] eqn:Hup.
  - right.
    rewrite (withAuth_refresh_persisted env req w Ha Hr t He Hrep Hid Hup).
    eauto.
  - left.
    rewrite (withAuth_refresh_persist_rejected env req w Ha Hr t e
               He Hrep Hid Hup).
    eauto.
Qed.

Lemma statsHandler_counts env req l w id username name img s tokens :
  fst (statsHandler env req l w)
  = Val (Json 200 (StatsBody id username name img s tokens)) ->
  exists uid,
    s = mkStats
          (count_where (fun a => (ua_userId a =? uid)%string) (userActions w))
          (count_where (fun a => (ua_userId a =? uid)%string
                                 && (ua_action a =? "like")%string)
                       (userActions w))
          (count_where (fun a => (ua_userId a =? uid)%string
                                 && (ua_action a =? "retweet")%string)
                       (userActions w))
          (count_where (fun a => (ua_userId a =? uid)%string
                                 && Bool.eqb (ua_success a) true)
                       (userActions w))
          (count_where (fun a => (ua_userId a =? uid)%string
                                 && Bool.eqb (ua_success a) false)
                       (userActions w)).
Proof.
  run.
  destruct (findMyUser_reply env) as [[d |] | e]; cbn; try discriminate.
  destruct (findFirst_reply env) as [[] | e]; cbn; try discriminate.
  destruct (find _ (users w)) as [u |]; cbn; try discriminate.
  destruct (counts_reply env) as [[] | e]; cbn; try discriminate.
  intros [= _ _ _ _ <- _]. exists (u_id u). reflexivity.
Qed.

(** C10: in every world reachable by the seed script and the routes, so
    in particular through the like and retweet handlers, every UserAction
    row is a like or a retweet (its success flag is a boolean by its
    type), and the counts of a [/user/stats] response satisfy
    totalActions = likes + retweets and totalActions = successful +
    failed. *)
Theorem stats_add_up env req w id username name img s tokens :
  reachable w ->
  fst (serve UserStats env req w)
  = Val (Json 200 (StatsBody id username name img s tokens)) ->
  Forall known_action (userActions w)
  /\ totalActions s = likes s + retweets s
  /\ totalActions s = successful s + failed s.
Proof.
  intros Hreach Hresp.
  pose proof (reachable_known_actions w Hreach) as Hinv.
  split; [exact Hinv |].
  cbn [serve] in Hresp. unfold guarded, bind in Hresp.
  destruct (withAuth_outcome env req w)
    as [(msg & w1 & E) | (l & w1 & E)]; rewrite E in Hresp;
    [discriminate Hresp |].
  destruct (withAuth_next env req w l w1 E) as (_ & _ & Hacts & _).
  destruct (statsHandler_counts env req l w1 _ _ _ _ _ _ Hresp)
    as (uid & ->).
  rewrite Hacts. cbn [totalActions likes retweets successful failed].
  split; [apply counts_by_action, Hinv | apply counts_by_success].
Qed.

Lemma stats_add_up_witness :
  Forall known_action (userActions after_two_actions)
  /\ totalActions (mkStats 2 1 1 1 1)
     = likes (mkStats 2 1 1 1 1) + retweets (mkStats 2 1 1 1 1)
  /\ totalActions (mkStats 2 1 1 1 1)
     = successful (mkStats 2 1 1 1 1) + failed (mkStats 2 1 1 1 1).
Proof.
  apply (stats_add_up calm stale_like after_two_actions "tw1"
           (Some "alice") (Some "Alice") None (mkStats 2 1 1 1 1)
           (Some (mkTokenData "a1" "r0" 9000))).
  - unfold after_two_actions. do 2 apply reach_serve. apply reach_start.
  - reflexivity.
Defined.

(** * Further properties *)

(** ** The guard: refresh failure, rotation, read-back *)

Lemma guarded_sent handler env req w r w1 :
  withAuth env req w = (Val (Sent r), w1) ->
  guarded handler env req w = (Val r, w1).
Proof. intros E. unfold guarded, bind. rewrite E. reflexivity. Qed.

(** X1: when the refresh grant is rejected, every guarded route answers
    401 "Authentication failed"; the refresh is the only call made, the
    handler behind the guard is not run, and both tables are as before. *)
Theorem refresh_failure_answers_401 r env req w e :
  is_guarded r = true ->
  truthy_str (accessToken req) = true ->
  truthy_str (refreshToken req) = true ->
  expired env req = true ->
  refresh_reply env = Rejected e ->
  serve r env req w
  = (Val (Json 401 (ErrorBody "Authentication failed")),
     mkWorld (users w) (userActions w) (Some (supplied req))
             (calls w ++ [RefreshAccessToken (refreshToken req)])).
Proof.
  intros Hg Ha Hr He Hrep.
  pose proof (withAuth_refresh_rejected env req w Ha Hr e He Hrep) as E.
  destruct r; try discriminate Hg; cbn [serve];
    apply guarded_sent; exact E.
Qed.

Lemma refresh_failure_answers_401_witness :
  serve UserStats
        (mkEnv 1000 (Rejected "invalid_grant")
               (Resolved (mkTokenData "a2" "r2" 9000)) (Resolved "revoked")
               (Resolved (Some alice_data)) (Resolved "liked")
               (Resolved "retweeted") (Resolved tt) (Resolved tt)
               (Resolved tt) (Resolved tt) (Resolved tt) "u2")
        stale_like one_user
  = (Val (Json 401 (ErrorBody "Authentication failed")),
     mkWorld [alice] [] (Some (supplied stale_like))
             [RefreshAccessToken (Some "r0")]).
Proof.
  apply (refresh_failure_answers_401 UserStats _ stale_like one_user
           "invalid_grant");
    reflexivity.
Defined.

(** The guard after a successful refresh, in terms of the refresh token
    [rt] that [refresh_token || refreshToken] evaluates to. *)
Lemma withAuth_refreshed_with env req w t rt :
  truthy_str (accessToken req) = true ->
  truthy_str (refreshToken req) = true ->
  expired env req = true ->
  refresh_reply env = Resolved t ->
  js_or (rf_refresh_token t) (str (refreshToken req)) = rt ->
  (forall l,
     fst (withAuth env req w) = Val (Next l) ->
     l_tokenData l
     = Some (mkTokenData (rf_access_token t) rt (rf_expires_at t)))
  /\ (truthy_str (twitterId req) = true ->
      In (UserUpdateMany (str (twitterId req)) (rf_access_token t) rt
                         (rf_expires_at t))
         (calls (snd (withAuth env req w))))
  /\ (truthy_str (twitterId req) = false
      \/ updateMany_reply env = Resolved tt ->
      exists l, fst (withAuth env req w) = Val (Next l)).
Proof.
  intros Ha Hr He Hrep Hrt.
  assert (Hk : replacement req t
               = mkTokenData (rf_access_token t) rt (rf_expires_at t)).
  { unfold replacement. rewrite Hrt. reflexivity. }
  assert (Hp : persist_call req t
               = UserUpdateMany (str (twitterId req)) (rf_access_token t) rt
                   (rf_expires_at t)).
  { unfold persist_call. rewrite Hrt. reflexivity. }
  destruct (truthy_str (twitterId req)) eqn:Hid.
  - destruct (updateMany_reply env) as [[] | err] eqn:Hup.
    + rewrite (withAuth_refresh_persisted env req w Ha Hr t He Hrep Hid Hup).
      cbn [fst snd calls]. repeat split.
      * intros l [= <-]. cbn. now rewrite Hk.
      * intros _. rewrite <- Hp. apply in_or_app. right. cbn. auto.
      * intros _. eexists. reflexivity.
    + rewrite (withAuth_refresh_persist_rejected env req w Ha Hr t err
                 He Hrep Hid Hup).
      cbn [fst snd calls]. repeat split.
      * intros l H. discriminate H.
      * intros _. rewrite <- Hp. apply in_or_app. right. cbn. auto.
      * intros [H | H]; discriminate H.
  - rewrite (withAuth_refresh_no_id env req w Ha Hr t He Hrep Hid).
    cbn [fst snd calls]. repeat split.
    + intros l [= <-]. cbn. now rewrite Hk.
    + intros H. discriminate H.
    + intros _. eexists. reflexivity.
Qed.

(** X2: when the refresh answer carries a non-empty refresh token, that
    rotated token, and not the one of the request, is in the replacement
    pair handed to the handler and in the [updateMany] call. *)
Theorem withAuth_adopts_rotated_token env req w t s :
  truthy_str (accessToken req) = true ->
  truthy_str (refreshToken req) = true ->
  expired env req = true ->
  refresh_reply env = Resolved t ->
  rf_refresh_token t = Some s ->
  s <> "" ->
  (forall l,
     fst (withAuth env req w) = Val (Next l) ->
     l_tokenData l
     = Some (mkTokenData (rf_access_token t) s (rf_expires_at t)))
  /\ (truthy_str (twitterId req) = true ->
      In (UserUpdateMany (str (twitterId req)) (rf_access_token t) s
                         (rf_expires_at t))
         (calls (snd (withAuth env req w))))
  /\ (truthy_str (twitterId req) = false
      \/ updateMany_reply env = Resolved tt ->
      exists l, fst (withAuth env req w) = Val (Next l)).
Proof.
  intros Ha Hr He Hrep Hs Hne.
  apply withAuth_refreshed_with; try assumption.
  rewrite Hs. unfold js_or, truthy_str.
  destruct (String.eqb_spec s "") as [E | _]; [contradiction | reflexivity].
Qed.

(** X3: a refresh answer whose refresh token is the empty string is
    treated like one without a refresh token: the refresh token of the
    request is kept in the replacement pair and in the [updateMany]
    call. *)
Theorem withAuth_empty_rotation_falls_back env req w t :
  truthy_str (accessToken req) = true ->
  truthy_str (refreshToken req) = true ->
  expired env req = true ->
  refresh_reply env = Resolved t ->
  rf_refresh_token t = Some "" ->
  (forall l,
     fst (withAuth env req w) = Val (Next l) ->
     l_tokenData l = Some (retained req t))
  /\ (truthy_str (twitterId req) = true ->
      In (UserUpdateMany (str (twitterId req)) (rf_access_token t)
                         (str (refreshToken req)) (rf_expires_at t))
         (calls (snd (withAuth env req w))))
  /\ (truthy_str (twitterId req) = false
      \/ updateMany_reply env = Resolved tt ->
      exists l, fst (withAuth env req w) = Val (Next l)).
Proof.
  intros Ha Hr He Hrep Hs.
  apply withAuth_refreshed_with; try assumption.
  rewrite Hs. reflexivity.
Qed.

Lemma withAuth_adopts_rotated_token_witness :
  (forall l,
     fst (withAuth (with_refresh (Resolved (mkRefreshed "a1" (Some "r1") 9000))
                                 calm)
                   stale_like one_user) = Val (Next l) ->
     l_tokenData l = Some (mkTokenData "a1" "r1" 9000))
  /\ In (UserUpdateMany "tw1" "a1" "r1" 9000)
        (calls (snd (withAuth
                       (with_refresh
                          (Resolved (mkRefreshed "a1" (Some "r1") 9000)) calm)
                       stale_like one_user))).
Proof.
  destruct (withAuth_adopts_rotated_token
              (with_refresh (Resolved (mkRefreshed "a1" (Some "r1") 9000))
                            calm)
              stale_like one_user (mkRefreshed "a1" (Some "r1") 9000) "r1")
    as (Hl & Hc & _);
    [reflexivity | reflexivity | reflexivity | reflexivity | reflexivity
    | discriminate |].
  split; [exact Hl | apply Hc; reflexivity].
Defined.

Lemma withAuth_empty_rotation_falls_back_witness :
  (forall l,
     fst (withAuth (with_refresh (Resolved (mkRefreshed "a1" (Some "") 9000))
                                 calm)
                   stale_like one_user) = Val (Next l) ->
     l_tokenData l = Some (mkTokenData "a1" "r0" 9000))
  /\ In (UserUpdateMany "tw1" "a1" "r0" 9000)
        (calls (snd (withAuth
                       (with_refresh
                          (Resolved (mkRefreshed "a1" (Some "") 9000)) calm)
                       stale_like one_user))).
Proof.
  destruct (withAuth_empty_rotation_falls_back
              (with_refresh (Resolved (mkRefreshed "a1" (Some "") 9000)) calm)
              stale_like one_user (mkRefreshed "a1" (Some "") 9000))
    as (Hl & Hc & _);
    [reflexivity | reflexivity | reflexivity | reflexivity | reflexivity |].
  split; [exact Hl | apply Hc; reflexivity].
Defined.

(** ** Looking rows up after an update *)

Lemma find_map_same_test {A} (p : A -> bool) (f : A -> A) (l : list A) :
  (forall x, p (f x) = p x) ->
  find p (map f l) = option_map f (find p l).
Proof.
  intros Hp. induction l as [| x l IH]; [reflexivity |].
  cbn. rewrite Hp. destruct (p x); [reflexivity | exact IH].
Qed.

Lemma persisted_twitterId env req t u :
  u_twitterId (persisted env req t u) = u_twitterId u.
Proof.
  unfold persisted. destruct (u_twitterId u =? _)%string; reflexivity.
Qed.

Lemma persisted_id env req t u : u_id (persisted env req t u) = u_id u.
Proof.
  unfold persisted. destruct (u_twitterId u =? _)%string; reflexivity.
Qed.

(** X4: once the guard has persisted a refreshed pair, looking the
    supplied [twitterId] up in the User table gives a row with the
    refreshed access token as [accessToken], the refresh token of the
    replacement pair as [refreshToken], the new expiry as
    [tokenExpiresAt] and the current time as [updatedAt], and with the
    id, the [twitterId] and the profile columns of the row that was
    there; the lookup of every other account gives what it gave
    before. *)
Theorem refreshed_pair_read_back env req w t u :
  truthy_str (accessToken req) = true ->
  truthy_str (refreshToken req) = true ->
  expired env req = true ->
  refresh_reply env = Resolved t ->
  truthy_str (twitterId req) = true ->
  updateMany_reply env = Resolved tt ->
  local_user (str (twitterId req)) w = Some u ->
  (exists u',
     local_user (str (twitterId req)) (snd (withAuth env req w)) = Some u'
     /\ carries (rf_access_token t)
                (js_or (rf_refresh_token t) (str (refreshToken req)))
                (rf_expires_at t) (now env) u u')
  /\ (forall tid,
        tid <> str (twitterId req) ->
        local_user tid (snd (withAuth env req w)) = local_user tid w).
Proof.
  intros Ha Hr He Hrep Hid Hup Hu.
  rewrite (withAuth_refresh_persisted env req w Ha Hr t He Hrep Hid Hup).
  unfold local_user in *. cbn [snd users]. split.
  - rewrite find_map_same_test
      by (intros x; now rewrite persisted_twitterId).
    rewrite Hu. cbn. eexists. split; [reflexivity |].
    pose proof (persisted_is_persisted_as env req t u) as H.
    unfold persisted_as in H.
    apply find_some in Hu. destruct Hu as [_ Hu]. rewrite Hu in H. exact H.
  - intros tid Hne.
    rewrite find_map_same_test
      by (intros x; now rewrite persisted_twitterId).
    destruct (find (fun x => (u_twitterId x =? tid)%string) (users w))
      as [u' |] eqn:Hu'; [| reflexivity].
    cbn. f_equal. unfold persisted.
    apply find_some in Hu'. destruct Hu' as [_ Hu'].
    apply String.eqb_eq in Hu'.
    destruct (String.eqb_spec (u_twitterId u') (str (twitterId req)))
      as [E | _]; [| reflexivity].
    congruence.
Qed.

Lemma refreshed_pair_read_back_witness :
  (exists u',
     local_user "tw1"
       (snd (withAuth
               (with_refresh (Resolved (mkRefreshed "a1" (Some "r1") 9000))
                             calm)
               other_pair_like two_users)) = Some u'
     /\ carries "a1" "r1" 9000 1000 alice u')
  /\ local_user "tw2"
       (snd (withAuth
               (with_refresh (Resolved (mkRefreshed "a1" (Some "r1") 9000))
                             calm)
               other_pair_like two_users)) = Some bob.
Proof.
  destruct (refreshed_pair_read_back
              (with_refresh (Resolved (mkRefreshed "a1" (Some "r1") 9000))
                            calm)
              other_pair_like two_users (mkRefreshed "a1" (Some "r1") 9000)
              alice eq_refl eq_refl eq_refl eq_refl eq_refl eq_refl eq_refl)
    as (Hrow & Hother).
  split; [exact Hrow |].
  rewrite (Hother "tw2"); [reflexivity | discriminate].
Defined.

(** ** The rows of the User table *)

(** Breaks a computation into its steps for a relation given by its
    reflexivity and transitivity; [atoms] closes the steps that update
    the world. *)
Ltac steps atoms refl trans :=
  cbv zeta;
  repeat first
    [ atoms
    | apply (keeps_ret _ refl)
    | apply (keeps_throw _ refl)
    | apply (keeps_await _ refl)
    | apply (keeps_get _ refl)
    | apply (keeps_bind _ trans); [| intros ?]
    | apply (keeps_try_catch _ trans); [| intros ?]
    | match goal with
      | |- keeps _ (if ?b then _ else _) => destruct b
      | |- keeps _ (match ?x with _ => _ end) => destruct x
      end ].

Lemma same_keys_refl w : same_keys w w.
Proof. reflexivity. Qed.

Lemma same_keys_trans a b c : same_keys a b -> same_keys b c -> same_keys a c.
Proof. unfold same_keys. congruence. Qed.

Lemma same_keys_log c : keeps same_keys (log c).
Proof. intros w. reflexivity. Qed.

Lemma same_keys_set_token t : keeps same_keys (set_token t).
Proof. intros w. reflexivity. Qed.

Lemma same_keys_set_userActions l : keeps same_keys (set_userActions l).
Proof. intros w. reflexivity. Qed.

Lemma same_keys_user_updateMany env tid at_ rt ex upd :
  keeps same_keys (user_updateMany env tid at_ rt ex upd).
Proof.
  intros w. run. destruct (updateMany_reply env); cbn; [| reflexivity].
  unfold same_keys, keys. cbn. rewrite map_map. apply map_ext.
  intros u. destruct (u_twitterId u =? tid)%string; reflexivity.
Qed.

Ltac same_keys_atoms :=
  first [ apply same_keys_log | apply same_keys_set_token
        | apply same_keys_set_userActions
        | apply same_keys_user_updateMany ].

Ltac keys_steps := steps same_keys_atoms same_keys_refl same_keys_trans.

Lemma same_keys_withAuth env req : keeps same_keys (withAuth env req).
Proof. unfold withAuth, refreshAccessToken. keys_steps. Qed.

Lemma same_keys_serve r env req w :
  is_guarded r = true ->
  keys (snd (serve r env req w)) = keys w.
Proof.
  intros Hg. change (same_keys w (snd (serve r env req w))). revert w.
  change (keeps same_keys (serve r env req)).
  destruct r; try discriminate Hg; cbn [serve]; unfold guarded;
    (apply (keeps_bind _ same_keys_trans); [apply same_keys_withAuth |]);
    intros [resp | l]; try apply (keeps_ret _ same_keys_refl).
  - unfold revokeHandler, revokeAccessToken. keys_steps.
  - unfold verifyHandler, findMyUser. keys_steps.
  - unfold likeHandler, actionHandler, findMyUser, usersIdLike, data_id,
      user_findFirst, userAction_create.
    keys_steps.
  - unfold retweetHandler, actionHandler, findMyUser, usersIdRetweets,
      data_id, user_findFirst, userAction_create.
    keys_steps.
  - unfold statsHandler, findMyUser, data_id, user_findFirst,
      userAction_counts.
    keys_steps.
Qed.

(** X5: no guarded route creates or deletes a User row, or changes the
    local id or the [twitterId] of one: the keys of the table are the
    same, in the same order, after the request as before. *)
Theorem guarded_routes_keep_rows r env req w :
  is_guarded r = true ->
  keys (snd (serve r env req w)) = keys w.
Proof. exact (same_keys_serve r env req w). Qed.

Lemma guarded_routes_keep_rows_witness :
  keys (snd (serve TweetsLike calm stale_like one_user)) = [("u1", "tw1")].
Proof.
  apply (guarded_routes_keep_rows TweetsLike calm stale_like one_user).
  reflexivity.
Defined.

Lemma keys_twitterIds w : map snd (keys w) = map u_twitterId (users w).
Proof. unfold keys. rewrite map_map. reflexivity. Qed.

Lemma stays_unique_refl w : stays_unique w w.
Proof. intros H. exact H. Qed.

Lemma stays_unique_trans a b c :
  stays_unique a b -> stays_unique b c -> stays_unique a c.
Proof. unfold stays_unique. auto. Qed.

Lemma stays_unique_same_accounts w w' :
  map u_twitterId (users w') = map u_twitterId (users w) ->
  stays_unique w w'.
Proof. unfold stays_unique, unique_accounts. intros ->. auto. Qed.

Lemma stays_unique_log c : keeps stays_unique (log c).
Proof. intros w. apply stays_unique_same_accounts. reflexivity. Qed.

Lemma stays_unique_set_token t : keeps stays_unique (set_token t).
Proof. intros w. apply stays_unique_same_accounts. reflexivity. Qed.

Lemma stays_unique_set_userActions l : keeps stays_unique (set_userActions l).
Proof. intros w. apply stays_unique_same_accounts. reflexivity. Qed.

(** An upsert whose [update] keeps the account of a row and whose
    [create] is of the account it looks up adds no second row of an
    account. *)
Lemma stays_unique_user_upsert env tid update create :
  (forall u, u_twitterId (update u) = u_twitterId u) ->
  u_twitterId create = tid ->
  keeps stays_unique (user_upsert env tid update create).
Proof.
  intros Hupd Hcre w. run.
  destruct (upsert_reply env); cbn;
    [| apply stays_unique_same_accounts; reflexivity].
  destruct (find _ (users w)) as [u |] eqn:Hf; cbn.
  - apply stays_unique_same_accounts. cbn. rewrite map_map.
    apply map_ext. intros x.
    destruct (u_twitterId x =? tid)%string; [apply Hupd | reflexivity].
  - unfold stays_unique, unique_accounts. cbn. intros Hnd.
    rewrite map_app. cbn. rewrite Hcre.
    apply NoDup_app; [exact Hnd | repeat constructor; cbn; tauto |].
    intros x Hin [<- | []].
    apply in_map_iff in Hin. destruct Hin as (u & Eu & Hin).
    pose proof (find_none _ _ Hf u Hin) as Hn. cbn in Hn.
    rewrite Eu, String.eqb_refl in Hn. discriminate Hn.
Qed.

Lemma stays_unique_serve r env req : keeps stays_unique (serve r env req).
Proof.
  destruct (is_guarded r) eqn:Hg.
  - intros w. apply stays_unique_same_accounts.
    rewrite <- !keys_twitterIds. f_equal.
    apply same_keys_serve. exact Hg.
  - destruct r; try discriminate Hg. cbn [serve].
    unfold callbackHandler, requestAccessToken, findMyUser.
    steps ltac:(first [ apply stays_unique_log | apply stays_unique_set_token
                      | apply stays_unique_user_upsert;
                        [intros; reflexivity | reflexivity] ])
          stays_unique_refl stays_unique_trans.
Qed.

Lemma stays_unique_seed_main env : keeps stays_unique (seed_main env).
Proof.
  unfold seed_main, userAction_createMany.
  steps ltac:(first [ apply stays_unique_log
                    | apply stays_unique_set_userActions
                    | apply stays_unique_user_upsert;
                      [intros; reflexivity | reflexivity] ])
        stays_unique_refl stays_unique_trans.
Qed.

(** X6: when no two User rows are of the same [twitterId], this is still
    so after any route has served any request and after a run of the
    seed script: the callback and the seed add a row only for an account
    that has none. *)
Theorem accounts_stay_unique r env req w :
  unique_accounts w ->
  unique_accounts (snd (serve r env req w))
  /\ unique_accounts (snd (seed_main env w)).
Proof.
  intros H. split.
  - apply (stays_unique_serve r env req w H).
  - apply (stays_unique_seed_main env w H).
Qed.

Lemma accounts_stay_unique_witness :
  unique_accounts
    (snd (serve AuthCallback (with_identity (Resolved (Some bob_data)) calm)
                good_callback one_user))
  /\ unique_accounts
       (snd (seed_main (with_identity (Resolved (Some bob_data)) calm)
                       one_user)).
Proof.
  apply (accounts_stay_unique AuthCallback _ good_callback one_user).
  repeat constructor. cbn. tauto.
Defined.

(** ** The shape of the responses *)

Ltac cases :=
  cbn [fst snd status_of tokens_of body_tokens];
  repeat (match goal with
          | |- context [match ?x with _ => _ end] =>
              lazymatch x with
              | context [match _ with _ => _ end] => fail
              | _ => destruct x eqn:?
              end
          end; cbn [fst snd status_of tokens_of body_tokens]).

(** The response of the handler behind the guard. *)
Lemma handler_response_shape r env req l w :
  is_guarded r = true ->
  exists resp,
    fst (handler_of r env req l w) = Val resp
    /\ In (status_of resp) (statuses r)
    /\ status_of resp <> 401
    /\ (status_of resp = 200 ->
        tokens_of resp = if carries_tokens r then l_tokenData l else None)
    /\ (status_of resp <> 200 -> tokens_of resp = None).
Proof.
  intros Hg. destruct r; try discriminate Hg; cbn [handler_of]; run; cases;
    eexists; (split; [reflexivity |]); cbn; repeat split;
    auto 8; try discriminate; try congruence.
Qed.

Lemma guarded_is_handler_of r :
  is_guarded r = true -> serve r = guarded (handler_of r).
Proof. destruct r; try discriminate; reflexivity. Qed.

(** The replacement pair the guard hands on is the [pending] one. *)
Lemma withAuth_next_tokens env req w l w1 :
  withAuth env req w = (Val (Next l), w1) ->
  l_tokenData l = pending env req.
Proof.
  unfold pending.
  destruct (truthy_str (accessToken req)) eqn:Ha;
    [| rewrite withAuth_missing by auto; discriminate].
  destruct (truthy_str (refreshToken req)) eqn:Hr;
    [| rewrite withAuth_missing by auto; discriminate].
  destruct (expired env req) eqn:He.
  - destruct (refresh_reply env) as [t | e] eqn:Hrep.
    + destruct (truthy_str (twitterId req)) eqn:Hid.
      * destruct (updateMany_reply env) as [[] | e] eqn:Hup.
        -- rewrite (withAuth_refresh_persisted env req w Ha Hr t He Hrep Hid Hup).
           intros [= <- <-]. reflexivity.
        -- rewrite (withAuth_refresh_persist_rejected env req w Ha Hr t e
                      He Hrep Hid Hup).
           discriminate.
      * rewrite (withAuth_refresh_no_id env req w Ha Hr t He Hrep Hid).
        intros [= <- <-]. reflexivity.
    + rewrite (withAuth_refresh_rejected env req w Ha Hr e He Hrep).
      discriminate.
  - rewrite (withAuth_not_expired env req w Ha Hr He).
    intros [= <- <-]. reflexivity.
Qed.

Lemma route_outcome r env req w :
  exists resp,
    fst (serve r env req w) = Val resp
    /\ In (status_of resp) (statuses r).
Proof.
  destruct (is_guarded r) eqn:Hg.
  - rewrite (guarded_is_handler_of r Hg).
    destruct (withAuth_outcome env req w)
      as [(msg & w1 & E) | (l & w1 & E)].
    + rewrite (guarded_sent _ env req w _ w1 E). eexists.
      split; [reflexivity |]. destruct r; try discriminate Hg; cbn; auto.
    + rewrite (guarded_next _ env req w l w1 E).
      destruct (handler_response_shape r env req l w1 Hg)
        as (resp & E' & Hin & _).
      exists resp. split; assumption.
  - destruct r; try discriminate Hg. cbn [serve]. run. cases;
      eexists; (split; [reflexivity |]); cbn; auto.
Qed.

(** X7: when the calls a request awaits settle, each by resolving or by
    rejecting, which is all an [Env] describes, no exception leaves a
    handler: the request ends with a response, whose status is one of
    those of the route: 302, 400 or 500 for the callback; 200, 401 or
    500 for revoke and verify, with 400 besides for like and retweet and
    404 besides for stats.  A call that never settles is outside this
    statement. *)
Theorem no_exception_leaves_a_handler r env req w :
  exists resp,
    fst (serve r env req w) = Val resp
    /\ In (status_of resp) (statuses r).
Proof. exact (route_outcome r env req w). Qed.

(** X8: a 200 response of verify, like, retweet or stats carries the
    [tokens] field exactly when the guard refreshed the pair, and then
    the field is the replacement pair: the refreshed access token, the
    rotated refresh token or else the one of the request, and the new
    expiry. *)
Theorem tokens_attached_iff_refreshed r env req w resp :
  carries_tokens r = true ->
  fst (serve r env req w) = Val resp ->
  status_of resp = 200 ->
  (expired env req = false -> tokens_of resp = None)
  /\ (expired env req = true ->
      exists t,
        refresh_reply env = Resolved t
        /\ tokens_of resp = Some (replacement req t)).
Proof.
  intros Hc Hresp H200.
  assert (Hg : is_guarded r = true) by (destruct r; try discriminate; reflexivity).
  rewrite (guarded_is_handler_of r Hg) in Hresp.
  destruct (withAuth_outcome env req w)
    as [(msg & w1 & E) | (l & w1 & E)].
  - rewrite (guarded_sent _ env req w _ w1 E) in Hresp.
    injection Hresp as <-. discriminate H200.
  - rewrite (guarded_next _ env req w l w1 E) in Hresp.
    destruct (handler_response_shape r env req l w1 Hg)
      as (resp' & E' & _ & _ & Htok & _).
    rewrite E' in Hresp. injection Hresp as ->.
    specialize (Htok H200). rewrite Hc in Htok.
    rewrite (withAuth_next_tokens env req w l w1 E) in Htok.
    unfold pending in Htok.
    destruct (withAuth_next env req w l w1 E) as (_ & _ & _ & Ha & Hr).
    split; intros He; rewrite He in Htok; [exact Htok |].
    destruct (refresh_reply env) as [t | e] eqn:Hrep.
    + exists t. split; [reflexivity | exact Htok].
    + rewrite (withAuth_refresh_rejected env req w Ha Hr e He Hrep) in E.
      discriminate E.
Qed.

Lemma tokens_attached_iff_refreshed_witness :
  tokens_of (Json 200 (ActionBody true "liked"
                                  (Some (mkTokenData "a1" "r0" 9000))))
  = Some (replacement stale_like (mkRefreshed "a1" None 9000))
  /\ tokens_of (Json 200 (ActionBody true "liked" None)) = None.
Proof.
  split.
  - destruct (tokens_attached_iff_refreshed TweetsLike calm stale_like
                one_user _ eq_refl eq_refl eq_refl) as (_ & H).
    destruct (H eq_refl) as (t & Ht & Htok).
    injection Ht as <-. exact Htok.
  - apply (tokens_attached_iff_refreshed TweetsLike calm anonymous_like
             one_user _ eq_refl eq_refl eq_refl).
    reflexivity.
Defined.

(** X9: a response with another status than 200 carries no [tokens]
    field, and the response of revoke never does: when the guard has
    refreshed the pair and the handler then answers 400, 404 or 500, or
    is the revoke handler, the replacement pair does not reach the
    caller. *)
Theorem replacement_lost_unless_200 r env req w resp :
  fst (serve r env req w) = Val resp ->
  status_of resp <> 200 \/ r = AuthRevoke ->
  tokens_of resp = None.
Proof.
  intros Hresp Hcase.
  destruct (is_guarded r) eqn:Hg.
  - rewrite (guarded_is_handler_of r Hg) in Hresp.
    destruct (withAuth_outcome env req w)
      as [(msg & w1 & E) | (l & w1 & E)].
    + rewrite (guarded_sent _ env req w _ w1 E) in Hresp.
      injection Hresp as <-. reflexivity.
    + rewrite (guarded_next _ env req w l w1 E) in Hresp.
      destruct (handler_response_shape r env req l w1 Hg)
        as (resp' & E' & _ & _ & H200 & Hnot).
      rewrite E' in Hresp. injection Hresp as ->.
      destruct (Z.eq_dec (status_of resp) 200) as [Heq | Hne];
        [| exact (Hnot Hne)].
      destruct Hcase as [Hne | ->]; [contradiction |].
      exact (H200 Heq).
  - destruct r; try discriminate Hg.
    destruct Hcase as [_ | Habs]; [| discriminate Habs].
    revert Hresp. cbn [serve]. run. cases; intros [= <-]; reflexivity.
Qed.

Lemma replacement_lost_unless_200_witness :
  fst (serve TweetsLike calm
             (mkRequest (Some "a0") (Some "r0") (Some 500) (Some "tw1")
                        None None None)
             one_user)
  = Val (Json 400 (ErrorBody "Tweet ID is required"))
  /\ refresh_calls
       (calls (snd (serve TweetsLike calm
                          (mkRequest (Some "a0") (Some "r0") (Some 500)
                                     (Some "tw1") None None None)
                          one_user))) = 1%nat
  /\ tokens_of (Json 400 (ErrorBody "Tweet ID is required")) = None.
Proof.
  split; [reflexivity |]. split; [reflexivity |].
  apply (replacement_lost_unless_200 TweetsLike calm
           (mkRequest (Some "a0") (Some "r0") (Some 500) (Some "tw1")
                      None None None)
           one_user);
    [reflexivity | left; discriminate].
Defined.

(** ** The action handlers, case by case *)

Section ActionCases.

Variable call : Env -> Client -> string -> string -> M Payload.
Variable reply : Env -> Result Payload.
Variable sent : option string -> string -> string -> Call.
Hypothesis call_runs :
  forall env c userId tweet w,
    call env c userId tweet w
    = (match reply env with
       | Resolved a => Val a
       | Rejected e => Exn e
       end,
       mkWorld (users w) (userActions w) (authClient_token w)
               (calls w ++ [sent (client_bearer c w) userId tweet])).

Variables (action failure : string).
Variables (env : Env) (req : Request) (l : Locals) (w : World).

Lemma actionHandler_no_tweetId :
  truthy_str (tweetId req) = false ->
  actionHandler call action failure env req l w
  = (Val (Json 400 (ErrorBody "Tweet ID is required")), w).
Proof. intros H. run. rewrite H. reflexivity. Qed.

Hypothesis Htweet : truthy_str (tweetId req) = true.
Hypothesis Hclient : l_twitterClient l = OnAuthClient.

Lemma actionHandler_no_local_row d :
  truthy_str (l_twitterId l) = true ->
  findMyUser_reply env = Resolved (Some d) ->
  findFirst_reply env = Resolved tt ->
  local_user (tu_id d) w = None ->
  actionHandler call action failure env req l w
  = (Val (Json 200 (ActionBody (resolved (reply env)) (payload (reply env))
                               (l_tokenData l))),
     mkWorld (users w) (userActions w) (authClient_token w)
             (calls w ++ [FindMyUser (bearer w);
                          sent (bearer w) (tu_id d) (str (tweetId req));
                          UserFindFirst (tu_id d)])).
Proof.
  unfold local_user. intros Hid Hme Hf Hu. run.
  rewrite Htweet, Hme, Hclient. cbn. rewrite call_runs.
  destruct (reply env) as [a | e]; cbn; rewrite Hid, Hf; cbn; rewrite Hu;
    cbn; rewrite <- !app_assoc; reflexivity.
Qed.

Lemma actionHandler_store_down d e :
  truthy_str (l_twitterId l) = true ->
  findMyUser_reply env = Resolved (Some d) ->
  findFirst_reply env = Rejected e ->
  actionHandler call action failure env req l w
  = (Val (Json 500 (ErrorBody failure)),
     mkWorld (users w) (userActions w) (authClient_token w)
             (calls w ++ [FindMyUser (bearer w);
                          sent (bearer w) (tu_id d) (str (tweetId req));
                          UserFindFirst (tu_id d)])).
Proof.
  intros Hid Hme Hf. run.
  rewrite Htweet, Hme, Hclient. cbn. rewrite call_runs.
  destruct (reply env) as [a | e']; cbn; rewrite Hid, Hf; cbn;
    rewrite <- !app_assoc; reflexivity.
Qed.

End ActionCases.

(** X10: a like or retweet request that passes the guard without a
    [tweetId] (absent or empty) is answered 400 "Tweet ID is required";
    the handler makes no call, so nothing is sent to the provider and
    nothing is logged. *)
Theorem action_without_tweetId_rejected env req w l w1 :
  withAuth env req w = (Val (Next l), w1) ->
  truthy_str (tweetId req) = false ->
  serve TweetsLike env req w
  = (Val (Json 400 (ErrorBody "Tweet ID is required")), w1)
  /\ serve TweetsRetweet env req w
     = (Val (Json 400 (ErrorBody "Tweet ID is required")), w1).
Proof.
  intros Hg Ht. cbn [serve]. rewrite !(guarded_next _ env req w l w1 Hg).
  split; apply actionHandler_no_tweetId; exact Ht.
Qed.

Lemma action_without_tweetId_rejected_witness :
  serve TweetsLike calm
        (mkRequest (Some "a0") (Some "r0") (Some 5000) (Some "tw1")
                   (Some "") None None)
        one_user
  = (Val (Json 400 (ErrorBody "Tweet ID is required")),
     mkWorld [alice] [] (Some (mkToken "a0" (Some "r0") (Some 5000))) []).
Proof.
  apply (action_without_tweetId_rejected calm
           (mkRequest (Some "a0") (Some "r0") (Some 5000) (Some "tw1")
                      (Some "") None None)
           one_user (mkLocals None OnAuthClient (Some "tw1")));
    reflexivity.
Defined.

Lemma second_of_three_appended {A} (l : list A) (a c z : A) :
  In c (l ++ [a; c; z]).
Proof. apply in_or_app. right. cbn. auto. Qed.

(** X11: when the provider resolves the acting account to one without a
    local User row, the like or retweet is still sent to the provider,
    for the provider-resolved id, and answered 200 with its outcome, but
    no UserAction row is written. *)
Theorem action_of_unknown_account_not_logged env req w l w1 d :
  withAuth env req w = (Val (Next l), w1) ->
  truthy_str (tweetId req) = true ->
  truthy_str (twitterId req) = true ->
  findMyUser_reply env = Resolved (Some d) ->
  findFirst_reply env = Resolved tt ->
  local_user (tu_id d) w1 = None ->
  (fst (serve TweetsLike env req w)
   = Val (Json 200 (ActionBody (resolved (like_reply env))
                               (payload (like_reply env)) (l_tokenData l)))
   /\ userActions (snd (serve TweetsLike env req w)) = userActions w
   /\ exists b,
        In (UsersIdLike b (tu_id d) (str (tweetId req)))
           (calls (snd (serve TweetsLike env req w))))
  /\ (fst (serve TweetsRetweet env req w)
      = Val (Json 200 (ActionBody (resolved (retweet_reply env))
                                  (payload (retweet_reply env))
                                  (l_tokenData l)))
      /\ userActions (snd (serve TweetsRetweet env req w)) = userActions w
      /\ exists b,
           In (UsersIdRetweets b (tu_id d) (str (tweetId req)))
              (calls (snd (serve TweetsRetweet env req w)))).
Proof.
  intros Hg Ht Hid Hme Hf Hu.
  destruct (withAuth_next env req w l w1 Hg) as (Hc & Hl & Hacts & _).
  rewrite Hid in Hl.
  assert (Hlid : truthy_str (l_twitterId l) = true) by now rewrite Hl.
  cbn [serve]. rewrite !(guarded_next _ env req w l w1 Hg).
  unfold likeHandler, retweetHandler.
  rewrite (actionHandler_no_local_row usersIdLike like_reply UsersIdLike
             usersIdLike_runs "like" "Failed to like tweet" env req l w1
             Ht Hc d Hlid Hme Hf Hu).
  rewrite (actionHandler_no_local_row usersIdRetweets retweet_reply
             UsersIdRetweets usersIdRetweets_runs "retweet"
             "Failed to retweet" env req l w1 Ht Hc d Hlid Hme Hf Hu).
  cbn [fst snd userActions calls].
  repeat split; try exact Hacts; exists (bearer w1);
    apply second_of_three_appended.
Qed.

Lemma action_of_unknown_account_not_logged_witness :
  fst (serve TweetsLike (with_identity (Resolved (Some bob_data)) calm)
             stale_like one_user)
  = Val (Json 200 (ActionBody true "liked"
                              (Some (mkTokenData "a1" "r0" 9000))))
  /\ userActions
       (snd (serve TweetsLike (with_identity (Resolved (Some bob_data)) calm)
                   stale_like one_user)) = []
  /\ exists b,
       In (UsersIdLike b "tw2" "t9")
          (calls (snd (serve TweetsLike
                             (with_identity (Resolved (Some bob_data)) calm)
                             stale_like one_user))).
Proof.
  apply (proj1 (action_of_unknown_account_not_logged
                  (with_identity (Resolved (Some bob_data)) calm)
                  stale_like one_user
                  (locals_of stale_like
                     (Some (replacement stale_like
                              (mkRefreshed "a1" None 9000))))
                  (snd (withAuth calm stale_like one_user))
                  bob_data eq_refl eq_refl eq_refl eq_refl eq_refl eq_refl)).
Defined.

(** X12: the action is sent to the provider before the store is
    consulted: when the row lookup is then rejected, the response is a
    500 although the like or retweet has been attempted, and possibly
    done, at the provider; no row records it. *)
Theorem action_sent_before_store_failure env req w l w1 d e :
  withAuth env req w = (Val (Next l), w1) ->
  truthy_str (tweetId req) = true ->
  truthy_str (twitterId req) = true ->
  findMyUser_reply env = Resolved (Some d) ->
  findFirst_reply env = Rejected e ->
  (fst (serve TweetsLike env req w)
   = Val (Json 500 (ErrorBody "Failed to like tweet"))
   /\ userActions (snd (serve TweetsLike env req w)) = userActions w
   /\ exists b,
        In (UsersIdLike b (tu_id d) (str (tweetId req)))
           (calls (snd (serve TweetsLike env req w))))
  /\ (fst (serve TweetsRetweet env req w)
      = Val (Json 500 (ErrorBody "Failed to retweet"))
      /\ userActions (snd (serve TweetsRetweet env req w)) = userActions w
      /\ exists b,
           In (UsersIdRetweets b (tu_id d) (str (tweetId req)))
              (calls (snd (serve TweetsRetweet env req w)))).
Proof.
  intros Hg Ht Hid Hme Hf.
  destruct (withAuth_next env req w l w1 Hg) as (Hc & Hl & Hacts & _).
  rewrite Hid in Hl.
  assert (Hlid : truthy_str (l_twitterId l) = true) by now rewrite Hl.
  cbn [serve]. rewrite !(guarded_next _ env req w l w1 Hg).
  unfold likeHandler, retweetHandler.
  rewrite (actionHandler_store_down usersIdLike like_reply UsersIdLike
             usersIdLike_runs "like" "Failed to like tweet" env req l w1
             Ht Hc d e Hlid Hme Hf).
  rewrite (actionHandler_store_down usersIdRetweets retweet_reply
             UsersIdRetweets usersIdRetweets_runs "retweet"
             "Failed to retweet" env req l w1 Ht Hc d e Hlid Hme Hf).
  cbn [fst snd userActions calls].
  repeat split; try exact Hacts; exists (bearer w1);
    apply second_of_three_appended.
Qed.

Lemma action_sent_before_store_failure_witness :
  fst (serve TweetsLike (with_findFirst (Rejected "store unavailable") calm)
             (mkRequest (Some "a0") (Some "r0") (Some 5000) (Some "tw1")
                        (Some "t9") None None)
             one_user)
  = Val (Json 500 (ErrorBody "Failed to like tweet"))
  /\ userActions
       (snd (serve TweetsLike
                   (with_findFirst (Rejected "store unavailable") calm)
                   (mkRequest (Some "a0") (Some "r0") (Some 5000)
                              (Some "tw1") (Some "t9") None None)
                   one_user)) = []
  /\ exists b,
       In (UsersIdLike b "tw1" "t9")
          (calls (snd (serve TweetsLike
                             (with_findFirst (Rejected "store unavailable")
                                             calm)
                             (mkRequest (Some "a0") (Some "r0") (Some 5000)
                                        (Some "tw1") (Some "t9") None None)
                             one_user))).
Proof.
  apply (proj1 (action_sent_before_store_failure
                  (with_findFirst (Rejected "store unavailable") calm)
                  (mkRequest (Some "a0") (Some "r0") (Some 5000) (Some "tw1")
                             (Some "t9") None None)
                  one_user (mkLocals None OnAuthClient (Some "tw1"))
                  (mkWorld [alice] []
                           (Some (mkToken "a0" (Some "r0") (Some 5000))) [])
                  alice_data "store unavailable"
                  eq_refl eq_refl eq_refl eq_refl eq_refl)).
Defined.

(** ** The stats route *)

Lemma local_id_keys tid w :
  local_id tid w
  = option_map fst (find (fun k => (snd k =? tid)%string) (keys w)).
Proof.
  unfold local_id, local_user, keys.
  induction (users w) as [| u us IH]; [reflexivity |].
  cbn. destruct (u_twitterId u =? tid)%string; [reflexivity | exact IH].
Qed.

Lemma local_id_same_keys tid w w' :
  keys w' = keys w -> local_id tid w' = local_id tid w.
Proof. intros E. rewrite !local_id_keys, E. reflexivity. Qed.

Lemma local_id_Some tid w uid :
  local_id tid w = Some uid ->
  exists u, local_user tid w = Some u /\ u_id u = uid.
Proof.
  unfold local_id. destruct (local_user tid w) as [u |]; [| discriminate].
  intros [= <-]. exists u. split; reflexivity.
Qed.

Lemma local_id_None tid w : local_id tid w = None -> local_user tid w = None.
Proof.
  unfold local_id. destruct (local_user tid w); [discriminate | reflexivity].
Qed.

Lemma statsHandler_found env req l w d u :
  l_twitterClient l = OnAuthClient ->
  findMyUser_reply env = Resolved (Some d) ->
  findFirst_reply env = Resolved tt ->
  counts_reply env = Resolved tt ->
  local_user (tu_id d) w = Some u ->
  statsHandler env req l w
  = (Val (Json 200 (StatsBody (u_twitterId u) (u_username u) (u_name u)
                              (u_profileImgUrl u)
                              (stats_for (u_id u) (userActions w))
                              (l_tokenData l))),
     mkWorld (users w) (userActions w) (authClient_token w)
             (calls w ++ [FindMyUser (bearer w); UserFindFirst (tu_id d);
                          UserActionCounts (u_id u)])).
Proof.
  unfold local_user. intros Hc Hme Hf Hcnt Hu. run.
  rewrite Hc, Hme. cbn. rewrite Hf. cbn. rewrite Hu. cbn. rewrite Hcnt. cbn.
  rewrite <- !app_assoc. reflexivity.
Qed.

Lemma statsHandler_not_found env req l w d :
  l_twitterClient l = OnAuthClient ->
  findMyUser_reply env = Resolved (Some d) ->
  findFirst_reply env = Resolved tt ->
  local_user (tu_id d) w = None ->
  statsHandler env req l w
  = (Val (Json 404 (ErrorBody "User not found in database")),
     mkWorld (users w) (userActions w) (authClient_token w)
             (calls w ++ [FindMyUser (bearer w); UserFindFirst (tu_id d)])).
Proof.
  unfold local_user. intros Hc Hme Hf Hu. run.
  rewrite Hc, Hme. cbn. rewrite Hf. cbn. rewrite Hu. cbn.
  rewrite <- !app_assoc. reflexivity.
Qed.

Lemma stats_route_counts env req w l w1 d uid :
  withAuth env req w = (Val (Next l), w1) ->
  findMyUser_reply env = Resolved (Some d) ->
  findFirst_reply env = Resolved tt ->
  counts_reply env = Resolved tt ->
  local_id (tu_id d) w = Some uid ->
  (exists id username name img,
     fst (serve UserStats env req w)
     = Val (Json 200 (StatsBody id username name img
                                (stats_for uid (userActions w))
                                (l_tokenData l))))
  /\ userActions (snd (serve UserStats env req w)) = userActions w.
Proof.
  intros Hg Hme Hf Hcnt Hid.
  destruct (withAuth_next env req w l w1 Hg) as (Hc & _ & Hacts & _).
  assert (Hk : keys w1 = keys w).
  { pose proof (same_keys_withAuth env req w) as K. rewrite Hg in K.
    exact K. }
  rewrite <- (local_id_same_keys (tu_id d) w w1 Hk) in Hid.
  destruct (local_id_Some _ _ _ Hid) as (u & Hu & <-).
  cbn [serve]. rewrite (guarded_next _ env req w l w1 Hg).
  rewrite (statsHandler_found env req l w1 d u Hc Hme Hf Hcnt Hu).
  cbn [fst snd userActions]. rewrite Hacts. split; [| reflexivity].
  do 4 eexists. reflexivity.
Qed.

(** X13: the counts of a stats response are those of the UserAction
    rows whose [userId] is the local id of the account the provider
    resolves the token to, whatever [twitterId] the body carries; the
    request leaves the action log as it was. *)
Theorem stats_counts_rows_of_resolved_account env req w l w1 d uid :
  withAuth env req w = (Val (Next l), w1) ->
  findMyUser_reply env = Resolved (Some d) ->
  findFirst_reply env = Resolved tt ->
  counts_reply env = Resolved tt ->
  local_id (tu_id d) w = Some uid ->
  (exists id username name img,
     fst (serve UserStats env req w)
     = Val (Json 200 (StatsBody id username name img
                                (stats_for uid (userActions w))
                                (l_tokenData l))))
  /\ userActions (snd (serve UserStats env req w)) = userActions w.
Proof. exact (stats_route_counts env req w l w1 d uid). Qed.

Lemma stats_counts_rows_of_resolved_account_witness :
  (exists id username name img,
     fst (serve UserStats calm anonymous_like after_two_actions)
     = Val (Json 200 (StatsBody id username name img (mkStats 2 1 1 1 1)
                                None)))
  /\ userActions (snd (serve UserStats calm anonymous_like after_two_actions))
     = userActions after_two_actions.
Proof.
  apply (stats_counts_rows_of_resolved_account calm anonymous_like
           after_two_actions (mkLocals None OnAuthClient None)
           (snd (withAuth calm anonymous_like after_two_actions))
           alice_data "u1");
    reflexivity.
Defined.

(** X14: when the provider resolves the token to an account without a
    local User row, stats answers 404 "User not found in database"; the
    counts are not run and the action log is as before. *)
Theorem stats_of_unknown_account_404 env req w l w1 d :
  withAuth env req w = (Val (Next l), w1) ->
  findMyUser_reply env = Resolved (Some d) ->
  findFirst_reply env = Resolved tt ->
  local_id (tu_id d) w = None ->
  fst (serve UserStats env req w)
  = Val (Json 404 (ErrorBody "User not found in database"))
  /\ userActions (snd (serve UserStats env req w)) = userActions w
  /\ exists cs,
       calls (snd (serve UserStats env req w)) = calls w1 ++ cs
       /\ filter is_counts_call cs = [].
Proof.
  intros Hg Hme Hf Hid.
  destruct (withAuth_next env req w l w1 Hg) as (Hc & _ & Hacts & _).
  assert (Hk : keys w1 = keys w).
  { pose proof (same_keys_withAuth env req w) as K. rewrite Hg in K.
    exact K. }
  rewrite <- (local_id_same_keys (tu_id d) w w1 Hk) in Hid.
  apply local_id_None in Hid.
  cbn [serve]. rewrite (guarded_next _ env req w l w1 Hg).
  rewrite (statsHandler_not_found env req l w1 d Hc Hme Hf Hid).
  cbn [fst snd userActions calls].
  split; [reflexivity |]. split; [exact Hacts |].
  eexists. split; reflexivity.
Qed.

Lemma stats_of_unknown_account_404_witness :
  fst (serve UserStats (with_identity (Resolved (Some bob_data)) calm)
             anonymous_like one_user)
  = Val (Json 404 (ErrorBody "User not found in database")).
Proof.
  apply (stats_of_unknown_account_404
           (with_identity (Resolved (Some bob_data)) calm)
           anonymous_like one_user (mkLocals None OnAuthClient None)
           (snd (withAuth calm anonymous_like one_user)) bob_data
           eq_refl eq_refl eq_refl eq_refl).
Defined.

(** X15: two stats requests served one after the other for the same
    account report the same counts, whatever tokens they carry and
    whether or not the guard refreshes in between. *)
Theorem stats_twice_same_counts env1 req1 env2 req2 w d
        id1 un1 n1 img1 s1 tk1 id2 un2 n2 img2 s2 tk2 :
  findMyUser_reply env1 = Resolved (Some d) ->
  findMyUser_reply env2 = Resolved (Some d) ->
  fst (serve UserStats env1 req1 w)
  = Val (Json 200 (StatsBody id1 un1 n1 img1 s1 tk1)) ->
  fst (serve UserStats env2 req2 (snd (serve UserStats env1 req1 w)))
  = Val (Json 200 (StatsBody id2 un2 n2 img2 s2 tk2)) ->
  s2 = s1.
Proof.
  intros Hme1 Hme2 H1 H2.
  set (w' := snd (serve UserStats env1 req1 w)) in *.
  assert (Hk : keys w' = keys w)
    by (apply same_keys_serve; reflexivity).
  assert (Hshape :
    forall env req w0 id un n img s tk,
      findMyUser_reply env = Resolved (Some d) ->
      fst (serve UserStats env req w0)
      = Val (Json 200 (StatsBody id un n img s tk)) ->
      exists uid,
        local_id (tu_id d) w0 = Some uid
        /\ s = stats_for uid (userActions w0)
        /\ userActions (snd (serve UserStats env req w0)) = userActions w0).
  { clear. intros env req w0 id un n img s tk Hme H.
    destruct (withAuth_outcome env req w0)
      as [(msg & w1 & E) | (l & w1 & E)].
    - cbn [serve] in H. rewrite (guarded_sent _ env req w0 _ w1 E) in H.
      discriminate H.
    - destruct (withAuth_next env req w0 l w1 E) as (Hc & _ & Hacts & _).
      assert (Hk : keys w1 = keys w0).
      { pose proof (same_keys_withAuth env req w0) as K. rewrite E in K.
        exact K. }
      cbn [serve] in *. rewrite (guarded_next _ env req w0 l w1 E) in *.
      destruct (findFirst_reply env) as [[] | e] eqn:Hf;
        [| revert H; run; rewrite Hc, Hme; cbn; rewrite Hf; discriminate].
      destruct (local_user (tu_id d) w1) as [u |] eqn:Hu;
        [| rewrite (statsHandler_not_found env req l w1 d Hc Hme Hf Hu) in H;
           discriminate H].
      destruct (counts_reply env) as [[] | e] eqn:Hcnt;
        [| revert H; unfold local_user in Hu; run; rewrite Hc, Hme; cbn;
           rewrite Hf; cbn; rewrite Hu; cbn; rewrite Hcnt; discriminate].
      rewrite (statsHandler_found env req l w1 d u Hc Hme Hf Hcnt Hu) in *.
      cbn [fst snd userActions] in *. injection H as _ _ _ _ <- _.
      exists (u_id u). rewrite Hacts. repeat split.
      rewrite <- (local_id_same_keys (tu_id d) w0 w1 Hk).
      unfold local_id. rewrite Hu. reflexivity. }
  destruct (Hshape env1 req1 w _ _ _ _ _ _ Hme1 H1) as (u1 & Hu1 & -> & Ha).
  destruct (Hshape env2 req2 w' _ _ _ _ _ _ Hme2 H2) as (u2 & Hu2 & -> & _).
  fold w' in Ha. rewrite Ha.
  rewrite (local_id_same_keys (tu_id d) w w' Hk) in Hu2.
  congruence.
Qed.

Lemma stats_twice_same_counts_witness :
  mkStats 2 1 1 1 1 = mkStats 2 1 1 1 1.
Proof.
  apply (stats_twice_same_counts calm stale_like calm anonymous_like
           after_two_actions alice_data
           "tw1" (Some "alice") (Some "Alice") None (mkStats 2 1 1 1 1)
           (Some (mkTokenData "a1" "r0" 9000))
           "tw1" (Some "alice") (Some "Alice") None (mkStats 2 1 1 1 1)
           None);
    reflexivity.
Defined.

Lemma count_where_snoc p l a :
  count_where p (l ++ [a]) = count_where p l + (if p a then 1 else 0).
Proof.
  unfold count_where. rewrite filter_app, length_app, Nat2Z.inj_add.
  cbn. destruct (p a); reflexivity.
Qed.

Lemma stats_for_snoc uid l tweet action success :
  action = "like" \/ action = "retweet" ->
  stats_for uid (l ++ [mkUserAction uid tweet action success])
  = one_more (action =? "like")%string success (stats_for uid l).
Proof.
  intros K. unfold stats_for, one_more. rewrite !count_where_snoc. cbn.
  rewrite String.eqb_refl. cbn.
  destruct K as [-> | ->], success; reflexivity.
Qed.

(** X16: a like or retweet that has been logged is counted: the stats
    served next for the same account are those of before with one more
    action, one more like or retweet, and one more success or failure
    according to the outcome of the provider action. *)
Theorem logged_action_is_counted env req w l w1 d u env' req' l' w3 :
  withAuth env req w = (Val (Next l), w1) ->
  truthy_str (tweetId req) = true ->
  truthy_str (twitterId req) = true ->
  findMyUser_reply env = Resolved (Some d) ->
  local_user (tu_id d) w1 = Some u ->
  findFirst_reply env = Resolved tt ->
  create_reply env = Resolved tt ->
  findMyUser_reply env' = Resolved (Some d) ->
  findFirst_reply env' = Resolved tt ->
  counts_reply env' = Resolved tt ->
  (withAuth env' req' (snd (serve TweetsLike env req w))
   = (Val (Next l'), w3) ->
   exists id username name img,
     fst (serve UserStats env' req' (snd (serve TweetsLike env req w)))
     = Val (Json 200
              (StatsBody id username name img
                 (one_more true (resolved (like_reply env))
                           (stats_for (u_id u) (userActions w)))
                 (l_tokenData l'))))
  /\ (withAuth env' req' (snd (serve TweetsRetweet env req w))
      = (Val (Next l'), w3) ->
      exists id username name img,
        fst (serve UserStats env' req' (snd (serve TweetsRetweet env req w)))
        = Val (Json 200
                 (StatsBody id username name img
                    (one_more false (resolved (retweet_reply env))
                              (stats_for (u_id u) (userActions w)))
                    (l_tokenData l')))).
Proof.
  intros Hg Ht Hid Hme Hu Hf Hc Hme' Hf' Hcnt'.
  destruct (actions_logged_by_route env req w l w1 d u Hg Ht Hid Hme Hu Hf Hc)
    as (HL & HR).
  assert (Hk1 : keys w1 = keys w).
  { pose proof (same_keys_withAuth env req w) as K. rewrite Hg in K.
    exact K. }
  assert (Hlid : local_id (tu_id d) w = Some (u_id u)).
  { rewrite <- (local_id_same_keys (tu_id d) w w1 Hk1).
    unfold local_id. rewrite Hu. reflexivity. }
  split; intros Hg'.
  - set (w2 := snd (serve TweetsLike env req w)) in *.
    assert (Hk2 : keys w2 = keys w)
      by (apply same_keys_serve; reflexivity).
    rewrite <- (local_id_same_keys (tu_id d) w w2 Hk2) in Hlid.
    destruct (stats_route_counts env' req' w2 l' w3 d
                (u_id u) Hg' Hme' Hf' Hcnt' Hlid) as (Hs & _).
    rewrite HL, stats_for_snoc in Hs by (left; reflexivity).
    exact Hs.
  - set (w2 := snd (serve TweetsRetweet env req w)) in *.
    assert (Hk2 : keys w2 = keys w)
      by (apply same_keys_serve; reflexivity).
    rewrite <- (local_id_same_keys (tu_id d) w w2 Hk2) in Hlid.
    destruct (stats_route_counts env' req' w2 l' w3 d
                (u_id u) Hg' Hme' Hf' Hcnt' Hlid) as (Hs & _).
    rewrite HR, stats_for_snoc in Hs by (right; reflexivity).
    exact Hs.
Qed.

Lemma logged_action_is_counted_witness :
  exists id username name img,
    fst (serve UserStats calm anonymous_like
               (snd (serve TweetsLike action_refused stale_like one_user)))
    = Val (Json 200 (StatsBody id username name img (mkStats 1 1 0 0 1)
                               None)).
Proof.
  apply (proj1 (logged_action_is_counted action_refused stale_like one_user
                  (locals_of stale_like
                     (Some (replacement stale_like
                              (mkRefreshed "a1" None 9000))))
                  (snd (withAuth action_refused stale_like one_user))
                  alice_data (with_tokens "a1" "r0" 9000 1000 alice)
                  calm anonymous_like (mkLocals None OnAuthClient None)
                  (snd (withAuth calm anonymous_like
                          (snd (serve TweetsLike action_refused stale_like
                                      one_user))))
                  eq_refl eq_refl eq_refl eq_refl eq_refl eq_refl eq_refl
                  eq_refl eq_refl eq_refl)).
  reflexivity.
Defined.

(** ** The callback *)

Lemma find_snoc_none {A} (p : A -> bool) (l : list A) (a : A) :
  find p l = None -> find p (l ++ [a]) = if p a then Some a else None.
Proof.
  induction l as [| x l IH]; cbn; [reflexivity |].
  destruct (p x); [discriminate | exact IH].
Qed.

Lemma find_snoc_some {A} (p : A -> bool) (l : list A) (a x : A) :
  find p l = Some x -> find p (l ++ [a]) = Some x.
Proof.
  induction l as [| y l IH]; cbn; [discriminate |].
  destruct (p y); [trivial | exact IH].
Qed.

Lemma callbackHandler_upserts env req w t d :
  state req = Some "twitter-auth-state" ->
  exchange_reply env = Resolved t ->
  findMyUser_reply env = Resolved (Some d) ->
  upsert_reply env = Resolved tt ->
  fst (callbackHandler env req w)
  = Val (Redirect (td_accessToken t) (td_refreshToken t) (td_expiresAt t)
                  (tu_id d))
  /\ calls (snd (callbackHandler env req w))
     = calls w ++ [RequestAccessToken (code req);
                   FindMyUser (Some (td_accessToken t));
                   UserUpsert (tu_id d)]
  /\ local_user (tu_id d) (snd (callbackHandler env req w))
     = Some (upserted_user env d t w)
  /\ (forall tid,
        tid <> tu_id d ->
        local_user tid (snd (callbackHandler env req w)) = local_user tid w)
  /\ length (users (snd (callbackHandler env req w)))
     = (length (users w)
        + match local_user (tu_id d) w with Some _ => 0 | None => 1 end)%nat
  /\ userActions (snd (callbackHandler env req w)) = userActions w.
Proof.
  intros Hs Hex Hme Hup.
  unfold upserted_user, local_user. run.
  rewrite Hs. cbn. rewrite Hex. cbn. rewrite Hme. cbn. rewrite Hup. cbn.
  destruct (find (fun u => (u_twitterId u =? tu_id d)%string) (users w))
    as [u |] eqn:Hf; cbn.
  - repeat split.
    + rewrite <- !app_assoc. reflexivity.
    + rewrite find_map_same_test
        by (intros x; destruct (u_twitterId x =? tu_id d)%string eqn:E;
            cbn; rewrite E; reflexivity).
      rewrite Hf. cbn. apply find_some in Hf. destruct Hf as [_ Hf].
      rewrite Hf. reflexivity.
    + intros tid Hne.
      rewrite find_map_same_test
        by (intros x; destruct (u_twitterId x =? tu_id d)%string;
            reflexivity).
      destruct (find (fun x => (u_twitterId x =? tid)%string) (users w))
        as [u' |] eqn:Hf'; [| reflexivity].
      cbn. apply find_some in Hf'. destruct Hf' as [_ Hf'].
      apply String.eqb_eq in Hf'.
      destruct (String.eqb_spec (u_twitterId u') (tu_id d)) as [E | _];
        [congruence | reflexivity].
    + rewrite length_map. lia.
  - repeat split.
    + rewrite <- !app_assoc. reflexivity.
    + rewrite (find_snoc_none _ _ _ Hf). cbn.
      rewrite String.eqb_refl. reflexivity.
    + intros tid Hne.
      destruct (find (fun x => (u_twitterId x =? tid)%string) (users w))
        as [u' |] eqn:Hf'.
      * apply (find_snoc_some _ _ _ _ Hf').
      * rewrite (find_snoc_none _ _ _ Hf'). cbn.
        destruct (String.eqb_spec (tu_id d) tid) as [E | _];
          [congruence | reflexivity].
    + rewrite length_app. reflexivity.
Qed.

(** X17: a callback with the expected [state], whose code the provider
    exchanges for the pair [t] and resolves to the identity [d], and
    whose upsert goes through, redirects with that pair and the id of
    [d]; the identity lookup is made with the exchanged access token;
    afterwards the User table has exactly one more row when [d] had
    none and as many as before otherwise; the row of [d] has the id of
    [d] as [twitterId], the exchanged pair as its token columns, and the
    local id it had, or a new one; the row of every other account and
    the action log are as before. *)
Theorem callback_upserts_and_redirects env req w t d :
  state req = Some "twitter-auth-state" ->
  exchange_reply env = Resolved t ->
  findMyUser_reply env = Resolved (Some d) ->
  upsert_reply env = Resolved tt ->
  fst (callbackHandler env req w)
  = Val (Redirect (td_accessToken t) (td_refreshToken t) (td_expiresAt t)
                  (tu_id d))
  /\ calls (snd (callbackHandler env req w))
     = calls w ++ [RequestAccessToken (code req);
                   FindMyUser (Some (td_accessToken t));
                   UserUpsert (tu_id d)]
  /\ (exists u',
        local_user (tu_id d) (snd (callbackHandler env req w)) = Some u'
        /\ u_twitterId u' = tu_id d
        /\ u_id u' = match local_id (tu_id d) w with
                     | Some id => id
                     | None => new_id env
                     end
        /\ u_accessToken u' = td_accessToken t
        /\ u_refreshToken u' = td_refreshToken t
        /\ u_tokenExpiresAt u' = td_expiresAt t)
  /\ (forall tid,
        tid <> tu_id d ->
        local_user tid (snd (callbackHandler env req w)) = local_user tid w)
  /\ length (users (snd (callbackHandler env req w)))
     = (length (users w)
        + match local_user (tu_id d) w with Some _ => 0 | None => 1 end)%nat
  /\ userActions (snd (callbackHandler env req w)) = userActions w.
Proof.
  intros Hs Hex Hme Hup.
  destruct (callbackHandler_upserts env req w t d Hs Hex Hme Hup)
    as (Hr & Hc & Hu & Ho & Hn & Ha).
  repeat (split; [assumption |]).
  split; [| repeat split; assumption].
  exists (upserted_user env d t w). split; [exact Hu |].
  unfold upserted_user, local_id.
  destruct (local_user (tu_id d) w) as [u |] eqn:Hf; cbn;
    repeat split.
  unfold local_user in Hf. apply find_some in Hf. destruct Hf as [_ Hf].
  apply String.eqb_eq in Hf. exact Hf.
Qed.

Lemma callback_upserts_and_redirects_witness :
  fst (callbackHandler calm good_callback two_users)
  = Val (Redirect "a2" "r2" 9000 "tw1")
  /\ (exists u',
        local_user "tw1" (snd (callbackHandler calm good_callback two_users))
        = Some u'
        /\ u_twitterId u' = "tw1"
        /\ u_id u' = "u1"
        /\ u_accessToken u' = "a2"
        /\ u_refreshToken u' = "r2"
        /\ u_tokenExpiresAt u' = 9000)
  /\ local_user "tw2" (snd (callbackHandler calm good_callback two_users))
     = Some bob.
Proof.
  destruct (callback_upserts_and_redirects calm good_callback two_users
              (mkTokenData "a2" "r2" 9000) alice_data
              eq_refl eq_refl eq_refl eq_refl)
    as (Hr & _ & Hu & Ho & _).
  split; [exact Hr | split; [exact Hu |]].
  rewrite (Ho "tw2"); [reflexivity | discriminate].
Defined.

(** X18: a callback that is answered 500 (the exchange, the identity
    lookup or the upsert was rejected) or 400 has written nothing: both
    tables are as before. *)
Theorem failed_callback_stores_nothing env req w resp :
  fst (callbackHandler env req w) = Val resp ->
  status_of resp <> 302 ->
  users (snd (callbackHandler env req w)) = users w
  /\ userActions (snd (callbackHandler env req w)) = userActions w.
Proof.
  run. cases; intros [= <-] H; cbn in *; try (split; reflexivity);
    exfalso; apply H; reflexivity.
Qed.

Lemma failed_callback_stores_nothing_witness :
  users (snd (callbackHandler
                (with_identity (Rejected "unauthorized") calm)
                good_callback one_user)) = [alice]
  /\ userActions (snd (callbackHandler
                         (with_identity (Rejected "unauthorized") calm)
                         good_callback one_user)) = [].
Proof.
  apply (failed_callback_stores_nothing
           (with_identity (Rejected "unauthorized") calm)
           good_callback one_user
           (Json 500 (ErrorBody "Authentication failed")));
    [reflexivity | discriminate].
Defined.

(** X19: when the provider exchanges the code but answers the identity
    lookup without [data], the callback still redirects with the
    exchanged pair, with an empty [twitterId], and no User row is
    written: the upsert is not called. *)
Theorem callback_without_identity_redirects env req w t :
  state req = Some "twitter-auth-state" ->
  exchange_reply env = Resolved t ->
  findMyUser_reply env = Resolved None ->
  callbackHandler env req w
  = (Val (Redirect (td_accessToken t) (td_refreshToken t) (td_expiresAt t)
                   ""),
     mkWorld (users w) (userActions w)
             (Some (mkToken (td_accessToken t) (Some (td_refreshToken t))
                            (Some (td_expiresAt t))))
             (calls w ++ [RequestAccessToken (code req);
                          FindMyUser (Some (td_accessToken t))])).
Proof.
  intros Hs Hex Hme. run.
  rewrite Hs. cbn. rewrite Hex. cbn. rewrite Hme. cbn.
  rewrite <- !app_assoc. reflexivity.
Qed.

Lemma callback_without_identity_redirects_witness :
  fst (callbackHandler (with_identity (Resolved None) calm)
                       good_callback one_user)
  = Val (Redirect "a2" "r2" 9000 "").
Proof.
  rewrite (callback_without_identity_redirects
             (with_identity (Resolved None) calm) good_callback one_user
             (mkTokenData "a2" "r2" 9000) eq_refl eq_refl eq_refl).
  reflexivity.
Defined.

(** ** Login, then an action *)

(** X20: after a callback has stored the account [d], a like or retweet
    made with the query of its redirect (the exchanged pair, the id of
    [d] as [twitterId]) and a [tweetId] is logged, provided the guard
    lets it through, the provider still resolves the token to [d] and
    the store answers: one row is appended, under the local id of the
    row of [d], the one it had or the one the callback created. *)
Theorem action_after_login_is_logged env req w t d env' tweet l w1 :
  state req = Some "twitter-auth-state" ->
  exchange_reply env = Resolved t ->
  findMyUser_reply env = Resolved (Some d) ->
  upsert_reply env = Resolved tt ->
  tu_id d <> "" ->
  tweet <> "" ->
  withAuth env'
    (request_of_redirect (td_accessToken t) (td_refreshToken t)
                         (td_expiresAt t) (tu_id d) (Some tweet))
    (snd (callbackHandler env req w))
  = (Val (Next l), w1) ->
  findMyUser_reply env' = Resolved (Some d) ->
  findFirst_reply env' = Resolved tt ->
  create_reply env' = Resolved tt ->
  userActions
    (snd (serve TweetsLike env'
            (request_of_redirect (td_accessToken t) (td_refreshToken t)
                                 (td_expiresAt t) (tu_id d) (Some tweet))
            (snd (callbackHandler env req w))))
  = userActions w
    ++ [mkUserAction (u_id (upserted_user env d t w)) tweet "like"
                     (resolved (like_reply env'))]
  /\ userActions
       (snd (serve TweetsRetweet env'
               (request_of_redirect (td_accessToken t) (td_refreshToken t)
                                    (td_expiresAt t) (tu_id d) (Some tweet))
               (snd (callbackHandler env req w))))
     = userActions w
       ++ [mkUserAction (u_id (upserted_user env d t w)) tweet "retweet"
                        (resolved (retweet_reply env'))].
Proof.
  intros Hs Hex Hme Hup Hd Htw Hg Hme' Hf' Hc'.
  destruct (callbackHandler_upserts env req w t d Hs Hex Hme Hup)
    as (_ & _ & Hu & _ & _ & Hacts).
  set (w' := snd (callbackHandler env req w)) in *.
  set (req' := request_of_redirect _ _ _ _ _) in *.
  assert (Hk : keys w1 = keys w').
  { pose proof (same_keys_withAuth env' req' w') as K. rewrite Hg in K.
    exact K. }
  assert (Hlid : local_id (tu_id d) w1 = Some (u_id (upserted_user env d t w))).
  { rewrite (local_id_same_keys (tu_id d) w' w1 Hk).
    unfold local_id. rewrite Hu. reflexivity. }
  destruct (local_id_Some _ _ _ Hlid) as (u1 & Hu1 & Hid1).
  assert (Htweet : truthy_str (tweetId req') = true).
  { cbn. apply negb_true_iff, String.eqb_neq, Htw. }
  assert (Htid : truthy_str (twitterId req') = true).
  { cbn. apply negb_true_iff, String.eqb_neq, Hd. }
  destruct (actions_logged_by_route env' req' w' l w1 d u1 Hg Htweet Htid Hme'
              Hu1 Hf' Hc') as (HL & HR).
  rewrite HL, HR, Hacts, Hid1. split; reflexivity.
Qed.

Lemma action_after_login_is_logged_witness :
  userActions
    (snd (serve TweetsLike (with_identity (Resolved (Some bob_data)) calm)
            (request_of_redirect "a2" "r2" 9000 "tw2" (Some "t9"))
            (snd (callbackHandler
                    (with_identity (Resolved (Some bob_data)) calm)
                    good_callback one_user))))
  = [mkUserAction "u2" "t9" "like" true].
Proof.
  apply (proj1 (action_after_login_is_logged
                  (with_identity (Resolved (Some bob_data)) calm)
                  good_callback one_user (mkTokenData "a2" "r2" 9000) bob_data
                  (with_identity (Resolved (Some bob_data)) calm) "t9"
                  (mkLocals None OnAuthClient (Some "tw2"))
                  (snd (withAuth
                          (with_identity (Resolved (Some bob_data)) calm)
                          (request_of_redirect "a2" "r2" 9000 "tw2"
                                               (Some "t9"))
                          (snd (callbackHandler
                                  (with_identity (Resolved (Some bob_data))
                                                 calm)
                                  good_callback one_user))))
                  eq_refl eq_refl eq_refl eq_refl
                  ltac:(discriminate) ltac:(discriminate)
                  eq_refl eq_refl eq_refl eq_refl)).
Defined.

(** X21: when the identity lookup of a like or retweet is rejected, or
    answers without [data], the response is a 500; the action is not
    sent to the provider and nothing is logged. *)
Theorem action_not_sent_without_identity env req w l w1 :
  withAuth env req w = (Val (Next l), w1) ->
  truthy_str (tweetId req) = true ->
  findMyUser_reply env = Resolved None
  \/ (exists e, findMyUser_reply env = Rejected e) ->
  (fst (serve TweetsLike env req w)
   = Val (Json 500 (ErrorBody "Failed to like tweet"))
   /\ userActions (snd (serve TweetsLike env req w)) = userActions w
   /\ exists cs,
        calls (snd (serve TweetsLike env req w)) = calls w1 ++ cs
        /\ filter is_action_call cs = [])
  /\ (fst (serve TweetsRetweet env req w)
      = Val (Json 500 (ErrorBody "Failed to retweet"))
      /\ userActions (snd (serve TweetsRetweet env req w)) = userActions w
      /\ exists cs,
           calls (snd (serve TweetsRetweet env req w)) = calls w1 ++ cs
           /\ filter is_action_call cs = []).
Proof.
  intros Hg Ht Hme.
  destruct (withAuth_next env req w l w1 Hg) as (Hc & _ & Hacts & _).
  cbn [serve]. rewrite !(guarded_next _ env req w l w1 Hg).
  split; run; rewrite Ht, Hc; cbn;
    destruct Hme as [-> | (e & ->)]; cbn;
    (split; [reflexivity |]); (split; [exact Hacts |]);
    eexists; split; reflexivity.
Qed.

Lemma action_not_sent_without_identity_witness :
  fst (serve TweetsLike (with_identity (Rejected "unauthorized") calm)
             anonymous_like one_user)
  = Val (Json 500 (ErrorBody "Failed to like tweet"))
  /\ userActions
       (snd (serve TweetsLike (with_identity (Rejected "unauthorized") calm)
                   anonymous_like one_user)) = []
  /\ exists cs,
       calls (snd (serve TweetsLike
                         (with_identity (Rejected "unauthorized") calm)
                         anonymous_like one_user))
       = [] ++ cs
       /\ filter is_action_call cs = [].
Proof.
  apply (proj1 (action_not_sent_without_identity
                  (with_identity (Rejected "unauthorized") calm)
                  anonymous_like one_user (mkLocals None OnAuthClient None)
                  (mkWorld [alice] []
                           (Some (mkToken "a0" (Some "r0") (Some 5000))) [])
                  eq_refl eq_refl
                  (or_intror (ex_intro _ "unauthorized" eq_refl)))).
Defined.

(** ** The seed script *)

Lemma map_if_same {A} (c : A -> bool) (l : list A) :
  map (fun x => if c x then x else x) l = l.
Proof.
  induction l as [| x l IH]; [reflexivity |].
  cbn. rewrite IH. destruct (c x); reflexivity.
Qed.

Lemma seed_main_runs env w :
  upsert_reply env = Resolved tt ->
  create_reply env = Resolved tt ->
  exists uid,
    local_id "seed_test_user" (snd (seed_main env w)) = Some uid
    /\ (local_id "seed_test_user" w = None \/
        local_id "seed_test_user" w = Some uid
        /\ users (snd (seed_main env w)) = users w)
    /\ userActions (snd (seed_main env w)) = userActions w ++ seed_rows uid.
Proof.
  intros Hup Hc. unfold local_id, local_user, seed_rows, seed_main. run.
  rewrite Hup. cbn.
  destruct (find (fun u => (u_twitterId u =? "seed_test_user")%string)
                 (users w)) as [u |] eqn:Hf; cbn; rewrite Hc; cbn.
  - exists (u_id u). rewrite map_if_same, Hf. cbn. auto.
  - eexists. rewrite (find_snoc_none _ _ _ Hf). cbn. auto.
Qed.

(** X22: a run of the seed script whose two store calls go through
    appends its three example rows, under the local id of the seed
    user; a second run finds the seed user, adds no User row, and
    appends the same three rows once more: the action log is not
    protected against re-seeding. *)
Theorem seeding_twice_duplicates_rows env1 env2 w :
  upsert_reply env1 = Resolved tt ->
  create_reply env1 = Resolved tt ->
  upsert_reply env2 = Resolved tt ->
  create_reply env2 = Resolved tt ->
  exists uid,
    local_id "seed_test_user" (snd (seed_main env1 w)) = Some uid
    /\ userActions (snd (seed_main env1 w)) = userActions w ++ seed_rows uid
    /\ keys (snd (seed_main env2 (snd (seed_main env1 w))))
       = keys (snd (seed_main env1 w))
    /\ userActions (snd (seed_main env2 (snd (seed_main env1 w))))
       = userActions w ++ seed_rows uid ++ seed_rows uid.
Proof.
  intros Hup1 Hc1 Hup2 Hc2.
  destruct (seed_main_runs env1 w Hup1 Hc1) as (uid & Hid & _ & Ha).
  destruct (seed_main_runs env2 (snd (seed_main env1 w)) Hup2 Hc2)
    as (uid' & _ & [Hnone | (Hsame & Hus)] & Ha').
  - rewrite Hid in Hnone. discriminate Hnone.
  - exists uid. rewrite Hid in Hsame. injection Hsame as <-.
    unfold keys. rewrite Ha', Ha, Hus, <- app_assoc. auto.
Qed.

Lemma seeding_twice_duplicates_rows_witness :
  exists uid,
    local_id "seed_test_user" (snd (seed_main calm one_user)) = Some uid
    /\ userActions (snd (seed_main calm one_user))
       = userActions one_user ++ seed_rows uid
    /\ keys (snd (seed_main calm (snd (seed_main calm one_user))))
       = keys (snd (seed_main calm one_user))
    /\ userActions (snd (seed_main calm (snd (seed_main calm one_user))))
       = userActions one_user ++ seed_rows uid ++ seed_rows uid.
Proof.
  apply (seeding_twice_duplicates_rows calm calm one_user); reflexivity.
Defined.

(** ** Requests without [twitterId] *)

Lemma same_tables_refl w : same_tables w w.
Proof. split; reflexivity. Qed.

Lemma same_tables_trans a b c :
  same_tables a b -> same_tables b c -> same_tables a c.
Proof. unfold same_tables. intros [] []. split; congruence. Qed.

Lemma same_tables_log c : keeps same_tables (log c).
Proof. intros w. split; reflexivity. Qed.

Lemma same_tables_set_token t : keeps same_tables (set_token t).
Proof. intros w. split; reflexivity. Qed.

Ltac tables_steps :=
  steps ltac:(first [ apply same_tables_log | apply same_tables_set_token ])
        same_tables_refl same_tables_trans.

Lemma same_tables_without_twitterId r env req w :
  is_guarded r = true ->
  truthy_str (twitterId req) = false ->
  users (snd (serve r env req w)) = users w
  /\ userActions (snd (serve r env req w)) = userActions w.
Proof.
  intros Hg Hid. change (same_tables w (snd (serve r env req w))).
  assert (HG : keeps same_tables (withAuth env req)).
  { unfold withAuth, refreshAccessToken. rewrite Hid. tables_steps. }
  rewrite (guarded_is_handler_of r Hg). unfold guarded, bind.
  pose proof (HG w) as Hw.
  destruct (withAuth env req w) as [[[resp | l] | e] w1] eqn:E;
    cbn [snd] in *; try exact Hw.
  destruct (withAuth_next env req w l w1 E) as (_ & Hl & _).
  rewrite Hid in Hl.
  apply (same_tables_trans _ _ _ Hw). revert w1 E Hw.
  change (forall w1 : World,
            withAuth env req w = (Val (Next l), w1) -> same_tables w w1 ->
            same_tables w1 (snd (handler_of r env req l w1))).
  intros w1 _ _. revert w1.
  change (keeps same_tables (handler_of r env req l)).
  destruct r; try discriminate Hg; cbn [handler_of].
  - unfold revokeHandler, revokeAccessToken. tables_steps.
  - unfold verifyHandler, findMyUser. tables_steps.
  - unfold likeHandler, actionHandler, findMyUser, usersIdLike, data_id.
    rewrite Hl. cbn [truthy_str]. tables_steps.
  - unfold retweetHandler, actionHandler, findMyUser, usersIdRetweets,
      data_id.
    rewrite Hl. cbn [truthy_str]. tables_steps.
  - unfold statsHandler, findMyUser, data_id, user_findFirst,
      userAction_counts.
    tables_steps.
Qed.

(** X23: a request to a guarded route whose body has no [twitterId]
    (absent or empty) writes nothing to the store, whatever the provider
    answers: a refreshed pair is not persisted and a like or retweet is
    not logged. *)
Theorem request_without_twitterId_writes_nothing r env req w :
  is_guarded r = true ->
  truthy_str (twitterId req) = false ->
  users (snd (serve r env req w)) = users w
  /\ userActions (snd (serve r env req w)) = userActions w.
Proof. exact (same_tables_without_twitterId r env req w). Qed.

Lemma request_without_twitterId_writes_nothing_witness :
  users (snd (serve TweetsLike calm
                    (mkRequest (Some "a0") (Some "r0") (Some 500) None
                               (Some "t9") None None)
                    one_user)) = [alice]
  /\ userActions (snd (serve TweetsLike calm
                             (mkRequest (Some "a0") (Some "r0") (Some 500)
                                        None (Some "t9") None None)
                             one_user)) = [].
Proof.
  apply (request_without_twitterId_writes_nothing TweetsLike calm
           (mkRequest (Some "a0") (Some "r0") (Some 500) None (Some "t9")
                      None None)
           one_user);
    reflexivity.
Defined.

(** ** Refresh calls of the guard *)

(** X24: the guard makes at most one refresh call per request: exactly
    one when the body has both tokens and an [expiresAt] that is not 0
    and not after the current time, and none otherwise. *)
Theorem guard_refreshes_at_most_once env req w :
  exists cs,
    calls (snd (withAuth env req w)) = calls w ++ cs
    /\ refresh_calls cs
       = if truthy_str (accessToken req) && truthy_str (refreshToken req)
            && expired env req
         then 1%nat else 0%nat.
Proof.
  destruct (truthy_str (accessToken req)) eqn:Ha;
    [| rewrite withAuth_missing by auto; exists [];
       split; [symmetry; apply app_nil_r | reflexivity]].
  destruct (truthy_str (refreshToken req)) eqn:Hr;
    [| rewrite withAuth_missing by auto; exists [];
       split; [symmetry; apply app_nil_r | reflexivity]].
  destruct (expired env req) eqn:He; cbn [andb].
  - destruct (refresh_reply env) as [t | e] eqn:Hrep.
    + destruct (truthy_str (twitterId req)) eqn:Hid.
      * destruct (updateMany_reply env) as [[] | e] eqn:Hup.
        -- rewrite (withAuth_refresh_persisted env req w Ha Hr t He Hrep Hid Hup).
           eexists. split; reflexivity.
        -- rewrite (withAuth_refresh_persist_rejected env req w Ha Hr t e
                      He Hrep Hid Hup).
           eexists. split; reflexivity.
      * rewrite (withAuth_refresh_no_id env req w Ha Hr t He Hrep Hid).
        eexists. split; reflexivity.
    + rewrite (withAuth_refresh_rejected env req w Ha Hr e He Hrep).
      eexists. split; reflexivity.
  - rewrite (withAuth_not_expired env req w Ha Hr He).
    exists []. split; [symmetry; apply app_nil_r | reflexivity].
Qed.

(** ** The browser client *)

Lemma guarded_serve_json r env req w :
  is_guarded r = true ->
  exists st data, fst (serve r env req w) = Val (Json st data).
Proof.
  intros Hg. destruct (route_outcome r env req w) as (resp & E & Hin).
  destruct resp as [st data | a b c d]; [eauto |].
  destruct r; try discriminate Hg; cbn in Hin;
    repeat (destruct Hin as [Hin | Hin]; [discriminate Hin |]);
    destruct Hin.
Qed.

Lemma makeAuthenticatedRequest_delivered env r tweet b w t :
  is_guarded r = true ->
  this_tokens b = Some t ->
  exists st data,
    fst (serve r env (request_body t tweet) w) = Val (Json st data)
    /\ makeAuthenticatedRequest Delivered env r tweet b w
       = (Val data,
          match body_tokens data with
          | Some tokens => setTokens (adopt tokens) b
          | None => b
          end,
          snd (serve r env (request_body t tweet) w)).
Proof.
  intros Hg Ht.
  destruct (guarded_serve_json r env (request_body t tweet) w Hg)
    as (st & data & E).
  exists st, data. split; [exact E |].
  unfold makeAuthenticatedRequest. rewrite Ht.
  destruct (serve r env (request_body t tweet) w) as [o w'].
  cbn in E. subst o. reflexivity.
Qed.

(** X25: when [revokeAuth] returns, the client holds no tokens, in
    memory or in [localStorage], whatever the backend answered: also
    when the guard answered 401 or the provider rejected the revoke and
    the backend answered 500.  When the request or the response is lost,
    it throws and the client keeps its tokens. *)
Theorem revokeAuth_always_logs_out env b w t :
  this_tokens b = Some t ->
  (exists st data,
     fst (serve AuthRevoke env (request_body t None) w) = Val (Json st data)
     /\ revokeAuth Delivered env b w
        = (Val data, mkBrowser None None,
           snd (serve AuthRevoke env (request_body t None) w)))
  /\ (forall e, revokeAuth (LostRequest e) env b w = (Exn e, b, w))
  /\ (forall e,
        revokeAuth (LostResponse e) env b w
        = (Exn e, b, snd (serve AuthRevoke env (request_body t None) w))).
Proof.
  intros Ht.
  destruct (makeAuthenticatedRequest_delivered env AuthRevoke None b w t
              eq_refl Ht) as (st & data & E & Hm).
  repeat split.
  - exists st, data. split; [exact E |].
    unfold revokeAuth. rewrite Hm. reflexivity.
  - intros e. unfold revokeAuth, makeAuthenticatedRequest. rewrite Ht.
    reflexivity.
  - intros e. unfold revokeAuth, makeAuthenticatedRequest. rewrite Ht.
    destruct (serve AuthRevoke env (request_body t None) w) as [o w'].
    cbn in E. subst o. reflexivity.
Qed.

Lemma revokeAuth_always_logs_out_witness :
  exists st data,
    fst (serve AuthRevoke
               (with_refresh (Rejected "invalid_grant") calm)
               (request_body (mkClientTokens "a0" "r0" 500 (Some "tw1")) None)
               one_user)
    = Val (Json st data)
    /\ revokeAuth Delivered (with_refresh (Rejected "invalid_grant") calm)
                  stale_client one_user
       = (Val data, mkBrowser None None,
          snd (serve AuthRevoke
                     (with_refresh (Rejected "invalid_grant") calm)
                     (request_body (mkClientTokens "a0" "r0" 500 (Some "tw1"))
                                   None)
                     one_user)).
Proof.
  apply (revokeAuth_always_logs_out
           (with_refresh (Rejected "invalid_grant") calm) stale_client
           one_user (mkClientTokens "a0" "r0" 500 (Some "tw1"))).
  reflexivity.
Defined.

Lemma makeAuthenticatedRequest_world net env r tweet b w t :
  this_tokens b = Some t ->
  snd (makeAuthenticatedRequest net env r tweet b w) = w
  \/ snd (makeAuthenticatedRequest net env r tweet b w)
     = snd (serve r env (request_body t tweet) w).
Proof.
  intros Ht. unfold makeAuthenticatedRequest. rewrite Ht.
  destruct (serve r env (request_body t tweet) w) as [[[st data | ? ? ? ?] | e] w'];
    destruct net; cbn; auto.
Qed.

(** X26: once the client has taken the [tokens] of a response, it holds
    the replacement pair without [twitterId]; from then on none of its
    likes, retweets or revokes writes to the store: a later refresh is
    not persisted and no action is logged. *)
Theorem adopted_pair_forgets_twitterId net env r tweet b w data b1 w1 td :
  makeAuthenticatedRequest net env r tweet b w = (Val data, b1, w1) ->
  body_tokens data = Some td ->
  b1 = mkBrowser (Some (adopt td)) (Some (adopt td))
  /\ (forall net' env' r' tweet',
        is_guarded r' = true ->
        same_tables w1
          (snd (makeAuthenticatedRequest net' env' r' tweet' b1 w1))).
Proof.
  intros Hm Htd.
  assert (Hb : b1 = mkBrowser (Some (adopt td)) (Some (adopt td))).
  { revert Hm. unfold makeAuthenticatedRequest.
    destruct (this_tokens b) as [t |]; [| discriminate].
    destruct (serve r env (request_body t tweet) w)
      as [[[st data' | ? ? ? ?] | e] w'];
      destruct net; try discriminate;
      intros [= -> <- <-]; rewrite Htd; reflexivity. }
  split; [exact Hb |].
  intros net' env' r' tweet' Hg. subst b1.
  destruct (makeAuthenticatedRequest_world net' env' r' tweet'
              (mkBrowser (Some (adopt td)) (Some (adopt td))) w1 (adopt td)
              eq_refl) as [-> | ->].
  - apply same_tables_refl.
  - apply (same_tables_without_twitterId r' env' _ w1 Hg).
    reflexivity.
Qed.

Lemma adopted_pair_forgets_twitterId_witness :
  snd (fst (likeTweet Delivered calm "t9" stale_client one_user))
  = mkBrowser (Some (mkClientTokens "a1" "r0" 9000 None))
              (Some (mkClientTokens "a1" "r0" 9000 None))
  /\ same_tables
       (snd (likeTweet Delivered calm "t9" stale_client one_user))
       (snd (likeTweet Delivered calm "t8"
               (snd (fst (likeTweet Delivered calm "t9" stale_client
                                    one_user)))
               (snd (likeTweet Delivered calm "t9" stale_client one_user)))).
Proof.
  destruct (adopted_pair_forgets_twitterId Delivered calm TweetsLike
              (Some "t9") stale_client one_user
              (ActionBody true "liked" (Some (mkTokenData "a1" "r0" 9000)))
              (snd (fst (likeTweet Delivered calm "t9" stale_client one_user)))
              (snd (likeTweet Delivered calm "t9" stale_client one_user))
              (mkTokenData "a1" "r0" 9000) eq_refl eq_refl)
    as (Hb & Hw).
  split; [exact Hb |].
  rewrite Hb at 1.
  apply (Hw Delivered calm TweetsLike (Some "t8")). reflexivity.
Defined.


